(** * aoc_elf: the answer-submission workflow of [utils/answer_submission.py]

    A shallow embedding of the rate-limit bookkeeping and of the submission
    dispatcher, with the properties the specification states about them.

    Conventions of the embedding:
    - a Python [str] is a [string]; its characters are read as Latin-1 code
      points, the range on which [re.IGNORECASE] folds exactly the ASCII
      letters and [\d] is exactly [0-9];
    - a [timedelta] is its total number of microseconds, a [Z];
    - a call that may raise returns a [result];
    - console output, sleeping and the calls to collaborators are recorded
      as a trace of [event]s. *)

From Stdlib Require Import ZArith List String Ascii Bool Lia DecimalString.
From Equations Require Import Equations.
Import ListNotations.

Local Open Scope string_scope.
Local Open Scope Z_scope.

(** ** Exceptions *)

Inductive exn : Type :=
| OverflowError
| TypeError
| KeyError
| ValueError
| AttributeError
| JSONDecodeError
| IndexError
| OSError
| AocdError (detail : string).

Inductive result (A : Type) : Type :=
| Ok (a : A)
| Raise (e : exn).

Arguments Ok {A} a.
Arguments Raise {A} e.

Definition bind {A B : Type} (r : result A) (k : A -> result B) : result B :=
  match r with
  | Ok a => k a
  | Raise e => Raise e
  end.

Notation "x <- r ;; k" := (bind r (fun x => k))
  (at level 61, r at next level, right associativity).

Definition is_ok {A : Type} (r : result A) : bool :=
  match r with Ok _ => true | Raise _ => false end.

(** ** Strings *)

Module Str.

(** [needle in hay] *)
Fixpoint contains (needle hay : string) : bool :=
  if String.prefix needle hay then true
  else match hay with
       | EmptyString => false
       | String _ rest => contains needle rest
       end.

Fixpoint drop (n : nat) (s : string) : string :=
  match n, s with
  | O, _ => s
  | S n', String _ rest => drop n' rest
  | S _, EmptyString => EmptyString
  end.

Fixpoint take (n : nat) (s : string) : string :=
  match n, s with
  | O, _ => EmptyString
  | S n', String c rest => String c (take n' rest)
  | S _, EmptyString => EmptyString
  end.

(** [hay.split(sep)[0]]: the text before the first occurrence of [sep],
    all of [hay] when there is none. *)
Fixpoint before (sep hay : string) : string :=
  if String.prefix sep hay then EmptyString
  else match hay with
       | EmptyString => EmptyString
       | String c rest => String c (before sep rest)
       end.

Definition is_digit (c : ascii) : bool :=
  let n := nat_of_ascii c in (48 <=? n)%nat && (n <=? 57)%nat.

Definition is_upper (c : ascii) : bool :=
  let n := nat_of_ascii c in (65 <=? n)%nat && (n <=? 90)%nat.

Definition lower (c : ascii) : ascii :=
  if is_upper c then ascii_of_nat (nat_of_ascii c + 32) else c.

(** Equality of two characters under [re.IGNORECASE]. *)
Definition ci_eqb (c d : ascii) : bool :=
  Ascii.eqb (lower c) (lower d).

Fixpoint ci_equal (s t : string) : bool :=
  match s, t with
  | EmptyString, EmptyString => true
  | String c s', String d t' => ci_eqb c d && ci_equal s' t'
  | _, _ => false
  end.

Fixpoint all_digits (s : string) : bool :=
  match s with
  | EmptyString => true
  | String c rest => is_digit c && all_digits rest
  end.

Definition digit_value (c : ascii) : Z :=
  Z.of_nat (nat_of_ascii c) - 48.

Fixpoint int_acc (acc : Z) (s : string) : Z :=
  match s with
  | EmptyString => acc
  | String c rest => int_acc (10 * acc + digit_value c) rest
  end.

(** The number a string of decimal digits denotes. *)
Definition int (s : string) : Z := int_acc 0 s.

(** [sys.int_info.default_max_str_digits] *)
Definition max_str_digits : nat := 4300.

(** [int(s)] on a string of decimal digits: the interpreter refuses to
    convert more than [max_str_digits] of them. *)
Definition py_int (s : string) : result Z :=
  if (max_str_digits <? String.length s)%nat then Raise ValueError
  else Ok (int s).

End Str.

(** ** The fragment of [re] the parser uses

    Both patterns are sequences of literal characters, [.] and the group
    [(\d+)], searched with [re.IGNORECASE]. *)

Module Re.

Inductive atom : Type :=
| Chr (c : ascii)
| AnyChar
| Digits.

Fixpoint lits (s : string) : list atom :=
  match s with
  | EmptyString => []
  | String c rest => Chr c :: lits rest
  end.

Definition newline : ascii := ascii_of_nat 10.

(** Length of the longest run of digits [s] starts with. *)
Fixpoint span_digits (s : string) : nat :=
  match s with
  | String c rest => if Str.is_digit c then S (span_digits rest) else O
  | EmptyString => O
  end.

(** The greedy quantifier: give the group [n] characters, then [n - 1],
    down to one, until the continuation [k] matches what is left. *)
Fixpoint backtrack (k : string -> option (list string)) (s : string) (n : nat)
  : option (list string) :=
  match n with
  | O => None
  | S n' =>
      match k (Str.drop n s) with
      | Some groups => Some (Str.take n s :: groups)
      | None => backtrack k s n'
      end
  end.

(** A match of the pattern anchored at the start of [s]; the result is
    [groups()]. *)
Fixpoint match_here (p : list atom) : string -> option (list string) :=
  match p with
  | [] => fun _ => Some []
  | Chr c :: p' => fun s =>
      match s with
      | String d rest => if Str.ci_eqb c d then match_here p' rest else None
      | EmptyString => None
      end
  | AnyChar :: p' => fun s =>
      match s with
      | String d rest => if Ascii.eqb d newline then None else match_here p' rest
      | EmptyString => None
      end
  | Digits :: p' => fun s => backtrack (match_here p') s (span_digits s)
  end.

(** [re.search]: the leftmost position at which the pattern matches. *)
Fixpoint search (p : list atom) (s : string) : option (list string) :=
  match match_here p s with
  | Some groups => Some groups
  | None =>
      match s with
      | EmptyString => None
      | String _ rest => search p rest
      end
  end.

(** What it means for a pattern to match a prefix of a string, leaving
    [rest]: the reading of the pattern, independent of any strategy. *)
Inductive matches : list atom -> string -> list string -> string -> Prop :=
| matches_nil s :
    matches [] s [] s
| matches_chr c d p s groups rest :
    Str.ci_eqb c d = true ->
    matches p s groups rest ->
    matches (Chr c :: p) (String d s) groups rest
| matches_any d p s groups rest :
    d <> newline ->
    matches p s groups rest ->
    matches (AnyChar :: p) (String d s) groups rest
| matches_digits ds p s groups rest :
    ds <> EmptyString ->
    Str.all_digits ds = true ->
    matches p s groups rest ->
    matches (Digits :: p) (ds ++ s) (ds :: groups) rest.

(** The pattern occurs somewhere in [s]. *)
Definition occurs (p : list atom) (s : string) : Prop :=
  exists before after groups rest,
    s = before ++ after /\ matches p after groups rest.

(** No match starts at any of the first [n] positions of [s]. *)
Fixpoint no_match_before (p : list atom) (n : nat) (s : string) : bool :=
  match n with
  | O => true
  | S n' =>
      match match_here p s with
      | Some _ => false
      | None =>
          match s with
          | EmptyString => true
          | String _ rest => no_match_before p n' rest
          end
      end
  end.

End Re.

(** ** [datetime.timedelta] *)

Module Timedelta.

(** A duration, in microseconds. *)
Definition t : Type := Z.

Definition us_per_second : Z := 1000000.
Definition us_per_day : Z := 86400 * us_per_second.
Definition max_days : Z := 999999999.

(** The constructor normalises to days, seconds and microseconds and
    refuses a number of days of magnitude above [max_days]. *)
Definition in_range (us : Z) : bool :=
  (- max_days <=? us / us_per_day) && (us / us_per_day <=? max_days).

Definition of_us (us : Z) : result t :=
  if in_range us then Ok us else Raise OverflowError.

(** [timedelta(minutes=m, seconds=s)] *)
Definition make (minutes seconds : Z) : result t :=
  of_us ((60 * minutes + seconds) * us_per_second).

(** [timedelta()] *)
Definition zero : t := 0.

Definition sub (a b : t) : result t := of_us (a - b).

(** [max(a, b)]: [a] unless [b] is strictly greater. *)
Definition max (a b : t) : t := if a <? b then b else a.

End Timedelta.

(** ** The wait-time parser *)

(** [r"You have (\d+)m (\d+)s left to wait."] *)
Definition wait_left_re : list Re.atom :=
  Re.lits "You have " ++ Re.Digits :: Re.lits "m " ++ Re.Digits
    :: Re.lits "s left to wait" ++ [Re.AnyChar].

(** [r"please wait (\d+) minutes before trying again"] *)
Definition minutes_wait_re : list Re.atom :=
  Re.lits "please wait " ++ Re.Digits :: Re.lits " minutes before trying again".

(** A match of the first pattern has two groups and one of the third has one:
    the branches for other numbers of groups are what the unpacking and
    [group(1)] would do, and are never reached. *)
Definition parse_wait_time (message : string) : result Timedelta.t :=
  match Re.search wait_left_re message with
  | Some [minutes; seconds] =>
      minutes <- Str.py_int minutes ;;
      seconds <- Str.py_int seconds ;;
      Timedelta.make minutes seconds
  | Some _ => Raise ValueError
  | None =>
      if Str.contains "one minute" message then Timedelta.make 1 0
      else
        match Re.search minutes_wait_re message with
        | Some (minutes :: _) =>
            minutes <- Str.py_int minutes ;;
            Timedelta.make minutes 0
        | Some [] => Raise IndexError
        | None => Ok Timedelta.zero
        end
  end.

(** ** [datetime.datetime] *)

(** A point in time, in microseconds since the epoch: an aware one counts
    from the epoch in UTC, a naive one has no offset to relate it to that. *)
Inductive datetime : Type :=
| Aware (us : Z)
| Naive (us : Z).

Module Datetime.

(** [a > b]; comparing an aware with a naive datetime raises. *)
Definition gt (a b : datetime) : result bool :=
  match a, b with
  | Aware x, Aware y => Ok (y <? x)
  | Naive x, Naive y => Ok (y <? x)
  | _, _ => Raise TypeError
  end.

(** [a - b]; the difference of two datetimes always fits a timedelta. *)
Definition sub (a b : datetime) : result Timedelta.t :=
  match a, b with
  | Aware x, Aware y => Ok (x - y)
  | Naive x, Naive y => Ok (x - y)
  | _, _ => Raise TypeError
  end.

End Datetime.

(** ** Decoded JSON, with the Python operations the reader applies to it *)

#[warnings="-register-all"]
Inductive json : Type :=
| JNull
| JBool (b : bool)
| JNum (n : Z)
| JStr (s : string)
| JArr (items : list json)
| JObj (fields : list (string * json)).

Module Py.

(** [bool(v)] *)
Definition truthy (v : json) : bool :=
  match v with
  | JNull => false
  | JBool b => b
  | JNum n => negb (n =? 0)
  | JStr s => negb (String.eqb s "")
  | JArr items => match items with [] => false | _ => true end
  | JObj fields => match fields with [] => false | _ => true end
  end.

Fixpoint lookup (key : string) (fields : list (string * json)) : option json :=
  match fields with
  | [] => None
  | (k, v) :: rest => if String.eqb k key then Some v else lookup key rest
  end.

Fixpoint last_char (s : string) : option ascii :=
  match s with
  | EmptyString => None
  | String c EmptyString => Some c
  | String _ rest => last_char rest
  end.

(** [v[-1]] *)
Definition last_item (v : json) : result json :=
  match v with
  | JArr items =>
      match List.last (List.map Some items) None with
      | Some x => Ok x
      | None => Raise IndexError
      end
  | JStr s =>
      match last_char s with
      | Some c => Ok (JStr (String c EmptyString))
      | None => Raise IndexError
      end
  | JObj _ => Raise KeyError
  | JNull | JBool _ | JNum _ => Raise TypeError
  end.

(** [v[key]] for a string [key] *)
Definition getitem (key : string) (v : json) : result json :=
  match v with
  | JObj fields =>
      match lookup key fields with
      | Some x => Ok x
      | None => Raise KeyError
      end
  | _ => Raise TypeError
  end.

(** [v.get(key, default)] *)
Definition get (key : string) (default : json) (v : json) : result json :=
  match v with
  | JObj fields =>
      match lookup key fields with
      | Some x => Ok x
      | None => Ok default
      end
  | _ => Raise AttributeError
  end.

Definition is_str (s : string) (v : json) : bool :=
  match v with
  | JStr s' => String.eqb s' s
  | _ => false
  end.

(** [needle in v] for a string [needle] *)
Definition contains (needle : string) (v : json) : result bool :=
  match v with
  | JStr s => Ok (Str.contains needle s)
  | JArr items => Ok (List.existsb (is_str needle) items)
  | JObj fields => Ok (match lookup needle fields with Some _ => true | None => false end)
  | JNull | JBool _ | JNum _ => Raise TypeError
  end.

End Py.

(** ** The feedback cache and its reader *)

(** The cache directory: absent, or the [*_post.json] files in the order
    [glob] lists them, each with what [open] and [json.load] make of it. *)
Definition cache : Type := option (list (result json)).

Section Feedback.

(** [dateutil.parser.parse] *)
Variable parse : string -> result datetime.

Definition parse_when (v : json) : result datetime :=
  match v with
  | JStr s => parse s
  | _ => Raise TypeError
  end.

(** The loop variables [latest_valid_feedback], [latest_submission_time]. *)
Definition scan_state : Type := (option json * option datetime)%type.

(** One iteration of the loop over [post_files]. *)
Definition scan_file (st : scan_state) (file : result json) : result scan_state :=
  data <- file ;;
  if Py.truthy data then
    latest_feedback <- Py.last_item data ;;
    when <- Py.getitem "when" latest_feedback ;;
    submission_time <- parse_when when ;;
    message <- Py.get "message" (JStr "") latest_feedback ;;
    waiting <- Py.contains "wait" message ;;
    if waiting then
      newer <- match snd st with
               | None => Ok true
               | Some latest_submission_time =>
                   Datetime.gt submission_time latest_submission_time
               end ;;
      if newer then Ok (Some latest_feedback, Some submission_time)
      else Ok st
    else Ok st
  else Ok st.

Fixpoint scan_files (st : scan_state) (files : list (result json)) : result scan_state :=
  match files with
  | [] => Ok st
  | file :: rest => st' <- scan_file st file ;; scan_files st' rest
  end.

Definition read_last_submission_feedback (c : cache) : result (option json) :=
  match c with
  | None => Ok None
  | Some post_files =>
      st <- scan_files (None, None) post_files ;;
      Ok (fst st)
  end.

(** ** The cooldown calculator *)

(** [parse_wait_time(feedback["message"])]: [re.search] wants a string. *)
Definition parse_wait_time_of (v : json) : result Timedelta.t :=
  match v with
  | JStr s => parse_wait_time s
  | _ => Raise TypeError
  end.

(** The body of [calculate_remaining_wait_time] once the feedback is read;
    [now] is [datetime.now(tz=tzlocal())], an aware datetime. *)
Definition remaining_wait_time_of (feedback : option json) (now : Z)
  : result Timedelta.t :=
  match feedback with
  | None => Ok Timedelta.zero
  | Some fb =>
      if Py.truthy fb then
        message <- Py.get "message" (JStr "") fb ;;
        waiting <- Py.contains "wait" message ;;
        if waiting then
          text <- Py.getitem "message" fb ;;
          wait_time <- parse_wait_time_of text ;;
          when <- Py.getitem "when" fb ;;
          submission_time <- parse_when when ;;
          elapsed_time <- Datetime.sub (Aware now) submission_time ;;
          remaining_time <- Timedelta.sub wait_time elapsed_time ;;
          Ok (Timedelta.max remaining_time Timedelta.zero)
        else Ok Timedelta.zero
      else Ok Timedelta.zero
  end.

Definition calculate_remaining_wait_time (c : cache) (now : Z)
  : result Timedelta.t :=
  feedback <- read_last_submission_feedback c ;;
  remaining_wait_time_of feedback now.

(** ** Well-formed histories

    What the reader expects of a file: a JSON array whose last entry, when
    there is one, is an object with a [when] that parses to an aware
    datetime and a [message] that is a string or is missing. *)

Definition entry_time (v : json) : option Z :=
  match v with
  | JObj fields =>
      match Py.lookup "when" fields with
      | Some (JStr ts) =>
          match parse ts with
          | Ok (Aware t) => Some t
          | _ => None
          end
      | _ => None
      end
  | _ => None
  end.

Definition entry_message (v : json) : option string :=
  match v with
  | JObj fields =>
      match Py.lookup "message" fields with
      | Some (JStr m) => Some m
      | Some _ => None
      | None => Some ""
      end
  | _ => None
  end.

Definition well_formed_entry (v : json) : bool :=
  match entry_time v, entry_message v with
  | Some _, Some _ => true
  | _, _ => false
  end.

(** The entry's message contains the substring [wait]. *)
Definition wait_indicating (v : json) : bool :=
  match entry_message v with
  | Some m => Str.contains "wait" m
  | None => false
  end.

Definition last_entry (items : list json) : option json :=
  List.last (List.map Some items) None.

Definition well_formed_file (file : result json) : bool :=
  match file with
  | Ok (JArr items) =>
      match last_entry items with
      | Some e => well_formed_entry e
      | None => true
      end
  | _ => false
  end.

(** Every entry of every readable history, in scan order. *)
Definition all_entries (files : list (result json)) : list json :=
  List.flat_map
    (fun file => match file with Ok (JArr items) => items | _ => [] end) files.

(** The last entry of a readable, non-empty history. *)
Definition file_last_entry (file : result json) : list json :=
  match file with
  | Ok (JArr items) =>
      match last_entry items with Some e => [e] | None => [] end
  | _ => []
  end.

(** The last entry of every non-empty history, in scan order. *)
Definition last_entries (files : list (result json)) : list json :=
  List.flat_map file_last_entry files.

(** The entries the reader chooses among. *)
Definition candidates (files : list (result json)) : list json :=
  List.filter wait_indicating (last_entries files).

(** [e] is at least as recent as every entry of [es]. *)
Definition latest_among (e : json) (es : list json) : Prop :=
  exists t, entry_time e = Some t /\
    forall e', In e' es -> exists t', entry_time e' = Some t' /\ t' <= t.

(** What the loop variables hold after the files that contributed the
    candidates [cands]. *)
Definition scan_inv (st : scan_state) (cands : list json) : Prop :=
  (st = (None, None) /\ cands = [])
  \/ exists e t,
      st = (Some e, Some (Aware t)) /\ entry_time e = Some t
      /\ In e cands
      /\ forall e', In e' cands ->
                    exists t', entry_time e' = Some t' /\ t' <= t.

(** What the reader has checked of an entry it keeps. *)
Definition kept (fb : json) : Prop :=
  exists when t message,
    Py.getitem "when" fb = Ok when /\ parse_when when = Ok t
    /\ Py.get "message" (JStr "") fb = Ok message
    /\ Py.contains "wait" message = Ok true.

End Feedback.

(** ** Effects of the dispatcher *)

Inductive event : Type :=
| QueryAnswered (year day : Z) (part : string)
| Print (text : string)
| Sleep (seconds : Z)
| Submit (answer part : string) (year day : Z)
| Refresh (day year : Z) (day_dir : string).

(** What the collaborators answer during one attempt. *)
Record world : Type := {
  (** [puzzle.answered(part)] *)
  answered : result bool;
  (** the contents of [aocd_dir] *)
  feedback_cache : cache;
  (** the clock when the cooldown is computed, in microseconds *)
  now : Z;
  (** [submit(...)], decoded and parsed: the texts of the paragraphs of the
      response's [article], [None] when it has no [article] *)
  submit_response : result (option (list string));
  (** [get_day_directory(year, day, AOC_ROOT_DIR)] *)
  day_directory : result string;
  (** [check_and_update_example_input], by the number of earlier calls *)
  refresh_outcome : nat -> result bool
}.

(** A computation that writes a trace and may raise. *)
Definition prog (A : Type) : Type := (list event * result A)%type.

Module Prog.

Definition ret {A : Type} (a : A) : prog A := ([], Ok a).

Definition emit (e : event) : prog unit := ([e], Ok tt).

Definition lift {A : Type} (r : result A) : prog A := ([], r).

Definition bind {A B : Type} (m : prog A) (k : A -> prog B) : prog B :=
  match m with
  | (tr, Ok a) => let (tr', r) := k a in ((tr ++ tr')%list, r)
  | (tr, Raise e) => (tr, Raise e)
  end.

(** [try: m except Exception as e: handler(e)] *)
Definition try_except {A : Type} (m : prog A) (handler : exn -> prog A) : prog A :=
  match m with
  | (tr, Ok a) => (tr, Ok a)
  | (tr, Raise e) => let (tr', r) := handler e in ((tr ++ tr')%list, r)
  end.

Definition trace {A : Type} (m : prog A) : list event := fst m.

Definition outcome {A : Type} (m : prog A) : result A := snd m.

End Prog.

Notation "x <~ m ;; k" := (Prog.bind m (fun x => k))
  (at level 61, m at next level, right associativity).
Notation "m ;;; k" := (Prog.bind m (fun _ => k))
  (at level 61, right associativity).

Definition nl : string := String Re.newline EmptyString.
Definition cr : string := String (ascii_of_nat 13) EmptyString.

(** [print(text)] *)
Definition print (text : string) : prog unit := Prog.emit (Print (text ++ nl)).

(** [str(n)] *)
Definition str_of_Z (n : Z) : string :=
  DecimalString.NilZero.string_of_int (Z.to_int n).

(** [f"{n:02d}"] *)
Definition fmt_02d (n : Z) : string :=
  let s := str_of_Z n in
  if (String.length s <? 2)%nat then "0" ++ s else s.

(** ** The countdown presenter *)

(** The [while] loop of [display_countdown_timer]; [remaining] decreases by a
    second each turn, so the number of whole seconds left bounds the turns.
    [total_seconds()] is a float; below 2^53 microseconds, some 285 years,
    its integer part is the quotient by a million. *)
Equations? countdown_loop (remaining : Timedelta.t) : list event
  by wf (Z.to_nat (remaining / Timedelta.us_per_second + 1)) lt :=
  countdown_loop remaining with Z_lt_dec 0 remaining := {
    | left _ =>
        let total_seconds := remaining / Timedelta.us_per_second in
        let mins := total_seconds / 60 in
        let secs := total_seconds mod 60 in
        Print ("Rate limit in effect. Please wait: "
                 ++ fmt_02d mins ++ ":" ++ fmt_02d secs ++ cr)
          :: Sleep 1
          :: countdown_loop (remaining - Timedelta.us_per_second)
    | right _ => []
    }.
Proof.
  unfold Timedelta.us_per_second.
  replace (remaining - 1000000) with (remaining + (-1) * 1000000) by lia.
  rewrite Z.div_add by lia.
  assert (0 <= remaining / 1000000) by (apply Z.div_pos; lia).
  lia.
Qed.

Definition display_countdown_timer (remaining_time : Timedelta.t) : prog unit :=
  (countdown_loop remaining_time, Ok tt) ;;;
  print (nl ++ "You may now submit your answer.").

(** ** The response classifier: the loop over the paragraphs of [article] *)

Section Dispatcher.

Variable parse : string -> result datetime.
Variable w : world.
Variables (year day : Z) (part answer : string).

(** [calls] counts the refreshes already made. *)
Fixpoint scan_paragraphs (calls : nat) (paragraphs : list string) : prog unit :=
  match paragraphs with
  | [] => Prog.ret tt
  | text :: rest =>
      if Str.contains "You have completed Day" text then
        let completion_message := Str.before "You have completed Day" text in
        print (nl ++ completion_message)
      else if Str.contains "[Continue to Part Two]" text then
        day_dir <~ Prog.lift (day_directory w) ;;
        Prog.emit (Refresh day year day_dir) ;;;
        _ <~ Prog.lift (refresh_outcome w calls) ;;
        scan_paragraphs (S calls) rest
      else scan_paragraphs calls rest
  end.

(** The body of the [try] block. *)
Definition submit_and_classify : prog unit :=
  Prog.emit (Submit answer part year day) ;;;
  article <~ Prog.lift (submit_response w) ;;
  match article with
  | Some paragraphs => scan_paragraphs 0 paragraphs
  | None => print (nl ++ "Failed to submit answer.")
  end.

(** [str(e)] is not modelled beyond the class of the exception. *)
Definition str_of_exn (e : exn) : string :=
  match e with
  | OverflowError => "OverflowError"
  | TypeError => "TypeError"
  | KeyError => "KeyError"
  | ValueError => "ValueError"
  | AttributeError => "AttributeError"
  | JSONDecodeError => "JSONDecodeError"
  | IndexError => "IndexError"
  | OSError => "OSError"
  | AocdError detail => detail
  end.

(** ** The dispatcher *)

Definition submit_answer_attempt : prog unit :=
  Prog.emit (QueryAnswered year day part) ;;;
  response <~ Prog.lift (answered w) ;;
  if (response : bool) then
    print ("Answer for part " ++ part ++ " of day " ++ str_of_Z day
             ++ " of year " ++ str_of_Z year ++ " has already been submitted.")
  else
    remaining_wait_time <~
      Prog.lift (calculate_remaining_wait_time parse (feedback_cache w) (now w)) ;;
    if 0 <? remaining_wait_time then
      display_countdown_timer remaining_wait_time
    else
      Prog.try_except submit_and_classify
        (fun e => print (nl ++ str_of_exn e)).

End Dispatcher.

(** Observations on a trace. *)

Definition is_submit (e : event) : bool :=
  match e with Submit _ _ _ _ => true | _ => false end.

Definition is_refresh (e : event) : bool :=
  match e with Refresh _ _ _ => true | _ => false end.

Definition is_sleep (e : event) : bool :=
  match e with Sleep _ => true | _ => false end.

Definition count (f : event -> bool) (tr : list event) : nat :=
  List.length (List.filter f tr).

(** ** A timestamp parser to run the model on concrete histories

    [dateutil.parser.parse] is a parameter of the reader. To evaluate the
    model on the timestamps the cache holds, [Iso8601.parse] reads the layout
    [YYYY-MM-DD hh:mm:ss[.ffffff][+hh:mm]] ([T] or a space between date and
    time): aware when the offset is there, naive otherwise. *)

Module Iso8601.

Definition days_from_civil (y m d : Z) : Z :=
  let y' := if m <=? 2 then y - 1 else y in
  let era := y' / 400 in
  let yoe := y' - era * 400 in
  let mp := if 2 <? m then m - 3 else m + 9 in
  let doy := (153 * mp + 2) / 5 + d - 1 in
  let doe := yoe * 365 + yoe / 4 - yoe / 100 + doy in
  era * 146097 + doe - 719468.

Definition field (pos len : nat) (s : string) : option Z :=
  let f := String.substring pos len s in
  if (String.length f =? len)%nat && Str.all_digits f
  then Some (Str.int f) else None.

Definition char_in (pos : nat) (allowed : string) (s : string) : bool :=
  match String.get pos s with
  | Some c => Str.contains (String c EmptyString) allowed
  | None => false
  end.

(** The UTC offset in seconds: [Some None] when there is none. *)
Definition offset (s : string) : option (option Z) :=
  match s with
  | EmptyString => Some None
  | String sign rest =>
      if char_in 0 "Z" s && (String.length rest =? 0)%nat then Some (Some 0)
      else if char_in 0 "+-" s && (String.length rest =? 5)%nat && char_in 2 ":" rest then
        match field 0 2 rest, field 3 2 rest with
        | Some h, Some m =>
            let secs := (h * 60 + m) * 60 in
            Some (Some (if char_in 0 "-" s then - secs else secs))
        | _, _ => None
        end
      else None
  end.

Definition fraction (s : string) : option (Z * string) :=
  if char_in 19 "." s then
    match field 20 6 s with
    | Some us => Some (us, Str.drop 26 s)
    | None => None
    end
  else Some (0, Str.drop 19 s).

Definition parse (s : string) : result datetime :=
  if char_in 4 "-" s && char_in 7 "-" s && char_in 10 "T " s
     && char_in 13 ":" s && char_in 16 ":" s then
    match field 0 4 s, field 5 2 s, field 8 2 s,
          field 11 2 s, field 14 2 s, field 17 2 s, fraction s with
    | Some y, Some m, Some d, Some hh, Some mm, Some ss, Some (us, tz) =>
        let local :=
          (((days_from_civil y m d * 24 + hh) * 60 + mm) * 60 + ss)
            * Timedelta.us_per_second + us in
        match offset tz with
        | Some (Some off) => Ok (Aware (local - off * Timedelta.us_per_second))
        | Some None => Ok (Naive local)
        | None => Raise ValueError
        end
    | _, _, _, _, _, _, _ => Raise ValueError
    end
  else Raise ValueError.

End Iso8601.

(** ** Concrete histories and responses *)

Definition feedback_entry (part when message : string) : json :=
  JObj [("part", JStr part); ("when", JStr when); ("message", JStr message)].

(** The scenario of the specification: a wait of one minute recorded at
    10:00:00, read thirty seconds later. *)
Definition scenario_entry : json :=
  feedback_entry "a" "2024-12-01T10:00:00-05:00" "You have 1m 0s left to wait.".

Definition scenario_world : world := {|
  answered := Ok false;
  feedback_cache := Some [Ok (JArr [scenario_entry])];
  now := 1733065230000000;
  submit_response := Ok (Some ["That's the right answer!"]);
  day_directory := Ok "aoc/2024/day_01";
  refresh_outcome := fun _ => Ok true
|}.

(** The same, with the part already answered. *)
Definition answered_world : world := {|
  answered := Ok true;
  feedback_cache := Some [Ok (JArr [scenario_entry])];
  now := 1733065230000000;
  submit_response := Ok (Some ["That's the right answer!"]);
  day_directory := Ok "aoc/2024/day_01";
  refresh_outcome := fun _ => Ok true
|}.

(** A history whose wait was followed by an accepted answer. *)
Definition accepted_entry : json :=
  feedback_entry "a" "2024-12-01T10:01:00-05:00" "That's the right answer!".

Definition superseded_history : list (result json) :=
  [Ok (JArr [scenario_entry; accepted_entry])].

(** Four files: a wait as last entry, an empty history, a later wait, and a
    wait that an accepted answer followed. *)
Definition mixed_history : list (result json) :=
  [Ok (JArr [accepted_entry; scenario_entry]);
   Ok (JArr []);
   Ok (JArr [feedback_entry "b" "2024-12-02 09:00:00.500000+01:00"
               "You have 4m 30s left to wait."]);
   Ok (JArr [scenario_entry; accepted_entry])].

(** A cache with a file that does not decode. *)
Definition corrupt_history : list (result json) :=
  [Raise JSONDecodeError; Ok (JArr [accepted_entry])].

Definition world_with (c : cache) (response : result (option (list string))) : world := {|
  answered := Ok false;
  feedback_cache := c;
  now := 1733065230000000;
  submit_response := response;
  day_directory := Ok "aoc/2024/day_01";
  refresh_outcome := fun _ => Ok true
|}.

(** A response with the part-two marker in two paragraphs. *)
Definition two_marker_response : list string :=
  ["That's the right answer! [Continue to Part Two]";
   "You can also [Continue to Part Two] from the calendar."].

Definition right_answer_response : list string :=
  ["That's the right answer! You are one gold star closer."].

Definition wrong_answer_response : list string :=
  ["That's not the right answer. Please try again."].

(** ** What the classifier reaches *)

(** The paragraphs the loop looks at: those before the first one that
    contains [You have completed Day]. *)
Fixpoint scanned (paragraphs : list string) : list string :=
  match paragraphs with
  | [] => []
  | text :: rest =>
      if Str.contains "You have completed Day" text then []
      else text :: scanned rest
  end.

(** How many of them contain [[Continue to Part Two]]. *)
Definition marked (paragraphs : list string) : nat :=
  List.length
    (List.filter (Str.contains "[Continue to Part Two]") (scanned paragraphs)).

(** No paragraph contains either marker. *)
Definition unmarked (paragraphs : list string) : bool :=
  List.forallb
    (fun text =>
       negb (Str.contains "You have completed Day" text)
       && negb (Str.contains "[Continue to Part Two]" text)) paragraphs.

(** ** What the parser recognises *)

(** The message contains [needle]. *)
Definition has_substring (needle message : string) : Prop :=
  exists before after, message = before ++ needle ++ after.

(** The message matches one of the three patterns of [parse_wait_time]. *)
Definition recognised (message : string) : Prop :=
  Re.occurs wait_left_re message
  \/ has_substring "one minute" message
  \/ Re.occurs minutes_wait_re message.

(** The first pattern as the specification words it,
    [<m>m <s>s left to wait], without the words before the digits and the
    character after [wait] that the pattern of the code asks for. *)
Definition spec_left_to_wait_re : list Re.atom :=
  Re.Digits :: Re.lits "m " ++ Re.Digits :: Re.lits "s left to wait".

(** The number of groups of a pattern. *)
Fixpoint group_count (p : list Re.atom) : nat :=
  match p with
  | [] => O
  | Re.Digits :: p' => S (group_count p')
  | _ :: p' => group_count p'
  end.

(** The seconds a run spends asleep. *)
Fixpoint slept (tr : list event) : Z :=
  match tr with
  | [] => 0
  | Sleep seconds :: tr' => seconds + slept tr'
  | _ :: tr' => slept tr'
  end.

(** The events a run may produce once it has submitted. *)
Definition is_report (e : event) : bool :=
  match e with
  | Print _ | Refresh _ _ _ => true
  | _ => false
  end.


(** A world in which every refresh raises. *)
Definition failing_refresh_world : world := {|
  answered := Ok false;
  feedback_cache := None;
  now := 1733065230000000;
  submit_response :=
    Ok (Some ["That's the right answer!"; "[Continue to Part Two]";
              "You have completed Day 1!"]);
  day_directory := Ok "aoc/2024/day_01";
  refresh_outcome := fun _ => Raise TypeError
|}.

(** A response with two marked paragraphs before the completion of the day
    and one after it. *)
Definition busy_response : list string :=
  ["[Continue to Part Two]"; "No marker here.";
   "Again [Continue to Part Two]"; "You have completed Day 1!";
   "[Continue to Part Two]"].

(** ** [check_for_part_a_completion] of [utils/aoc_data.py] *)

(** [for x in v]: the items of an array, the keys of an object, the
    characters of a string; anything else cannot be iterated. *)
Definition py_iter (v : json) : result (list json) :=
  match v with
  | JArr items => Ok items
  | JObj fields => Ok (List.map (fun kv => JStr (fst kv)) fields)
  | JStr s =>
      Ok (List.map (fun c => JStr (String c EmptyString)) (list_ascii_of_string s))
  | JNull | JBool _ | JNum _ => Raise TypeError
  end.

(** The loop over [submissions]. *)
Fixpoint part_a_accepted_in (submissions : list json) : result bool :=
  match submissions with
  | [] => Ok false
  | submission :: rest =>
      part <- Py.get "part" JNull submission ;;
      if Py.is_str "a" part then
        message <- Py.get "message" (JStr "") submission ;;
        found <- Py.contains "That's the right answer" message ;;
        if found then Ok true else part_a_accepted_in rest
      else part_a_accepted_in rest
  end.

(** [post_file] is the file of the day: [None] when it does not exist,
    otherwise what [json.load] makes of it. *)
Definition check_for_part_a_completion (post_file : option (result json))
  : result bool :=
  match post_file with
  | None => Ok false
  | Some file =>
      submissions <- file ;;
      items <- py_iter submissions ;;
      part_a_accepted_in items
  end.

(** An entry records an accepted answer to part a. *)
Definition accepted_part_a (v : json) : bool :=
  match v with
  | JObj fields =>
      match Py.lookup "part" fields, entry_message v with
      | Some part, Some m =>
          Py.is_str "a" part && Str.contains "That's the right answer" m
      | _, _ => false
      end
  | _ => false
  end.

(** An entry is an object whose message is a string or is missing. *)
Definition plain_entry (v : json) : bool :=
  match entry_message v with
  | Some _ => true
  | None => false
  end.

(** ** [check_and_update_example_input] of [utils/aoc_data.py] *)

(** What [subprocess.run(["aocd", day, year, "--example"], check=True)]
    does: it completes with its standard output, fails with a non-zero exit
    status, or cannot be run at all. *)
Inductive run_result : Type :=
| Completed (stdout : string)
| CalledProcessError (stderr : string)
| RunRaises (e : exn).

Inductive example_event : Type :=
| RunAocdExample (day year : Z)
| WriteExample (content : string)
| Say (text : string).

(** The outcome of a call: the content of [example.txt] afterwards ([None]
    when there is no such file), what the call did, and what it returned. *)
Record example_outcome : Type := {
  example_after : option string;
  example_did : list example_event;
  example_returned : result bool
}.

Section ExampleRefresh.

Variables (day year : Z).
(** [os.path.join(day_dir, "example.txt")] *)
Variables (day_dir example_file : string).

(** [example] is the content of [example.txt], [None] when it does not
    exist; the file is taken to be readable and writable when it exists.
    The call [get_example_input(day, year)] of the [else] branch lacks the
    third argument of [get_example_input(day, year, day_dir)]: it raises
    [TypeError] before that function runs. *)
Definition check_and_update_example_input
    (example : option string) (aocd : run_result) : example_outcome :=
  match example with
  | Some example_input =>
      if Str.contains "answer_b: -" example_input then
        match aocd with
        | Completed stdout =>
            {| example_after := Some stdout;
               example_did :=
                 RunAocdExample day year :: WriteExample stdout
                   :: (if Str.contains "answer_b: -" stdout then []
                       else [Say ("Updated example input for Part B for day '"
                                    ++ str_of_Z day ++ "' of year '"
                                    ++ str_of_Z year ++ "' in "
                                    ++ example_file ++ "." ++ nl)]);
               example_returned := Ok true |}
        | CalledProcessError _ =>
            {| example_after := example;
               example_did :=
                 [RunAocdExample day year;
                  Say ("Failed to update example input for Part B for day '"
                         ++ str_of_Z day ++ "' of year '" ++ str_of_Z year
                         ++ "' in " ++ example_file ++ "." ++ nl)];
               example_returned := Ok false |}
        | RunRaises e =>
            {| example_after := example;
               example_did := [RunAocdExample day year];
               example_returned := Raise e |}
        end
      else
        {| example_after := example;
           example_did :=
             [Say (nl ++ "Puzzle input and example input already exists for day '"
                     ++ str_of_Z day ++ "' of year '" ++ str_of_Z year
                     ++ "' at " ++ day_dir ++ "." ++ nl)];
           example_returned := Ok false |}
  | None =>
      {| example_after := None;
         example_did := [];
         example_returned := Raise TypeError |}
  end.

End ExampleRefresh.

Definition is_run (e : example_event) : bool :=
  match e with RunAocdExample _ _ => true | _ => false end.

(** ** More of Python's [str] and [int] *)

Module PyStr.

(** [c.isspace()] on Latin-1. *)
Definition is_space (c : ascii) : bool :=
  let n := nat_of_ascii c in
  ((9 <=? n) && (n <=? 13) || (28 <=? n) && (n <=? 32)
   || (n =? 133) || (n =? 160))%nat.

Fixpoint lstrip (s : string) : string :=
  match s with
  | EmptyString => EmptyString
  | String c rest => if is_space c then lstrip rest else s
  end.

Fixpoint rstrip (s : string) : string :=
  match s with
  | EmptyString => EmptyString
  | String c rest =>
      match rstrip rest with
      | EmptyString => if is_space c then EmptyString else String c EmptyString
      | rest' => String c rest'
      end
  end.

(** [s.strip()] *)
Definition strip (s : string) : string := rstrip (lstrip s).

(** [c.lower()] on Latin-1: the ASCII capitals and the accented ones, the
    multiplication sign between them excepted. *)
Definition lower_char (c : ascii) : ascii :=
  let n := nat_of_ascii c in
  if ((65 <=? n) && (n <=? 90)
      || (192 <=? n) && (n <=? 222) && negb (n =? 215))%nat
  then ascii_of_nat (n + 32) else c.

(** [s.lower()] *)
Fixpoint lower (s : string) : string :=
  match s with
  | EmptyString => EmptyString
  | String c rest => String (lower_char c) (lower rest)
  end.

(** The digits of an integer literal: a digit, then digits each preceded by
    at most one underscore. *)
Fixpoint literal_body (after_digit : bool) (s : string) : bool :=
  match s with
  | EmptyString => after_digit
  | String c rest =>
      if Str.is_digit c then literal_body true rest
      else if Ascii.eqb c "_" then after_digit && literal_body false rest
      else false
  end.

Fixpoint digits_of (s : string) : string :=
  match s with
  | EmptyString => EmptyString
  | String c rest =>
      if Str.is_digit c then String c (digits_of rest) else digits_of rest
  end.

(** [int(s)] for a string: [None] is [ValueError]. White space around the
    literal is ignored, a sign may precede it, and more than
    [Str.max_str_digits] digits are refused. *)
Definition int (s : string) : option Z :=
  let s := strip s in
  let '(negative, body) :=
    match s with
    | String "+" rest => (false, rest)
    | String "-" rest => (true, rest)
    | _ => (false, s)
    end in
  if literal_body false body
     && (String.length (digits_of body) <=? Str.max_str_digits)%nat
  then Some (if negative then - Str.int (digits_of body)
             else Str.int (digits_of body))
  else None.

End PyStr.

(** ** The operator's console *)

(** [input(prompt)] and [print(text)]. *)
Inductive console_event : Type :=
| Ask (prompt : string)
| Tell (text : string).

(** What a dialogue ends in: a value and the lines not yet read, or the
    [EOFError] of [input] when no line is left. *)
Inductive reply (A : Type) : Type :=
| Got (a : A) (rest : list string)
| EOFError.

Arguments Got {A} a rest.
Arguments EOFError {A}.

Definition is_tell (e : console_event) : bool :=
  match e with Tell _ => true | Ask _ => false end.

(** *** [prompt_for_part_and_answer] *)

Definition part_prompt : string := "Enter the part (a or b): ".

(** The [while True] loop; [inputs] are the lines the operator types. *)
Fixpoint ask_part (inputs : list string) : list console_event * reply string :=
  match inputs with
  | [] => ([Ask part_prompt], EOFError)
  | line :: rest =>
      let part := PyStr.lower (PyStr.strip line) in
      if String.eqb part "a" || String.eqb part "b"
      then ([Ask part_prompt], Got part rest)
      else
        let (tr, r) := ask_part rest in
        (Ask part_prompt
           :: Tell ("Invalid input. Please enter 'a' or 'b'." ++ nl) :: tr, r)
  end.

Definition prompt_for_part_and_answer (inputs : list string)
  : list console_event * reply (string * string) :=
  match ask_part inputs with
  | (tr, Got part rest) =>
      match rest with
      | [] => ((tr ++ [Ask "Enter the answer: "])%list, EOFError)
      | line :: rest' =>
          ((tr ++ [Ask "Enter the answer: "])%list,
           Got (part, PyStr.strip line) rest')
      end
  | (tr, EOFError) => (tr, EOFError)
  end.

(** *** [get_day_and_year] of [utils/aoc_data.py] *)

(** [AOC_DAYS] of [utils/file_operations.py] *)
Definition AOC_DAYS : Z := 25.

(** [str(v)] for [v] an integer or [None]. *)
Definition str_of_optZ (v : option Z) : string :=
  match v with
  | Some n => str_of_Z n
  | None => "None"
  end.

Section DayAndYear.

(** [datetime.now()]: its year, month and day. *)
Variables (now_year now_month now_day : Z).

Definition in_advent : bool :=
  (now_month =? 12) && (1 <=? now_day) && (now_day <=? 25).

Definition default_year : option Z := if in_advent then Some now_year else None.
Definition default_day : option Z := if in_advent then Some now_day else None.

(** [int(text) if text else default], with [ValueError] as [None]. *)
Definition entered (text : string) (default : option Z) : option (option Z) :=
  if String.eqb text "" then Some default
  else match PyStr.int text with
       | Some n => Some (Some n)
       | None => None
       end.

(** [v and (lo <= v <= hi)] *)
Definition within (v : option Z) (lo hi : Z) : bool :=
  match v with
  | Some n => negb (n =? 0) && (lo <=? n) && (n <=? hi)
  | None => false
  end.

Definition year_prompt : string :=
  "Enter the year (default: " ++ str_of_optZ default_year ++ "): ".

Definition day_prompt : string :=
  "Enter the day (default: " ++ str_of_optZ default_day ++ "): ".

Fixpoint ask_year (inputs : list string) : list console_event * reply Z :=
  match inputs with
  | [] => ([Ask year_prompt], EOFError)
  | line :: rest =>
      let year_input := PyStr.strip line in
      match entered year_input default_year with
      | Some year =>
          if within year 2015 now_year then
            ([Ask year_prompt],
             Got (match year with Some n => n | None => 0 end) rest)
          else
            let (tr, r) := ask_year rest in
            (Ask year_prompt
               :: Tell ("Invalid year: " ++ str_of_optZ year
                          ++ ". Please enter a year between 2015 and "
                          ++ str_of_Z now_year ++ "." ++ nl) :: tr, r)
      | None =>
          let (tr, r) := ask_year rest in
          (Ask year_prompt
             :: Tell ("Invalid input. Please enter a valid year between 2015 and "
                        ++ str_of_Z now_year ++ "." ++ nl) :: tr, r)
      end
  end.

Fixpoint ask_day (inputs : list string) : list console_event * reply Z :=
  match inputs with
  | [] => ([Ask day_prompt], EOFError)
  | line :: rest =>
      let day_input := PyStr.strip line in
      match entered day_input default_day with
      | Some day =>
          if within day 1 AOC_DAYS then
            ([Ask day_prompt],
             Got (match day with Some n => n | None => 0 end) rest)
          else
            let (tr, r) := ask_day rest in
            (Ask day_prompt
               :: Tell ("Invalid day: " ++ str_of_optZ day
                          ++ ". Please enter a day between 1 and "
                          ++ str_of_Z AOC_DAYS ++ "." ++ nl) :: tr, r)
      | None =>
          let (tr, r) := ask_day rest in
          (Ask day_prompt
             :: Tell ("Invalid input. Please enter a valid day between 1 and "
                        ++ str_of_Z AOC_DAYS ++ "." ++ nl) :: tr, r)
      end
  end.

(** The result is [(day, year)]. *)
Definition get_day_and_year (inputs : list string)
  : list console_event * reply (Z * Z) :=
  match ask_year inputs with
  | (tr, Got year rest) =>
      match ask_day rest with
      | (tr', Got day rest') => ((tr ++ tr')%list, Got (day, year) rest')
      | (tr', EOFError) => ((tr ++ tr')%list, EOFError)
      end
  | (tr, EOFError) => (tr, EOFError)
  end.

End DayAndYear.

(** ** [setup_environment] of [utils/environment.py] and [submit_answer] *)

Section Environment.

(** [os.path.join], whose result depends on the platform. *)
Variable path_join : string -> string -> string.
(** [os.getenv] once [load_dotenv()] has run. *)
Variable getenv : string -> option string.

(** The result is [(BASE_DIR, AOC_ROOT_DIR, GITHUB_REPO, AOC_SESSION)];
    joining a missing [BASE_DIR] raises. *)
Definition setup_environment
  : result (string * string * option string * option string) :=
  match getenv "BASE_DIR" with
  | Some base_dir =>
      Ok (base_dir, path_join base_dir "aoc_solutions",
          getenv "GITHUB_REPO", getenv "AOC_SESSION")
  | None => Raise TypeError
  end.

Definition setup_user_session : result (option string) :=
  env <- setup_environment ;;
  Ok (snd env).

End Environment.

(** What a run of [submit_answer] does: talk to the operator, and the
    effects of the dispatcher. *)
Inductive io : Type :=
| Console (e : console_event)
| Effect (e : event).

Inductive ending : Type :=
| Returned
| EndOfInput
| Raised (e : exn).

Definition is_submission (e : io) : bool :=
  match e with
  | Effect (Submit _ _ _ _) => true
  | _ => false
  end.

Section SubmitAnswer.

Variable parse : string -> result datetime.
Variable path_join : string -> string -> string.
Variable getenv : string -> option string.
Variables (now_year now_month now_day : Z).
(** What the collaborators answer for the puzzle and answer chosen. *)
Variable world_of : Z -> Z -> string -> string -> world.

Definition submit_answer (inputs : list string) : list io * ending :=
  match setup_user_session path_join getenv with
  | Raise e => ([], Raised e)
  | Ok session =>
      if match session with
         | Some token => String.eqb token ""
         | None => true
         end
      then
        ([Console
            (Tell ("Session token not found. Please run 'python aoc.py' and choose option 0 to set up your session token."
                     ++ nl))],
         Returned)
      else
        let intro :=
          Console
            (Tell (nl ++ "Submit an answer for a specific 'year', 'day', and 'part'."
                      ++ nl)) in
        match get_day_and_year now_year now_month now_day inputs with
        | (tr, EOFError) => (intro :: List.map Console tr, EndOfInput)
        | (tr, Got (day, year) rest) =>
            match prompt_for_part_and_answer rest with
            | (tr', EOFError) =>
                (intro :: List.map Console (tr ++ tr'), EndOfInput)
            | (tr', Got (part, answer) _) =>
                let (effects, r) :=
                  submit_answer_attempt parse (world_of year day part answer)
                    year day part answer in
                (intro :: List.map Console (tr ++ tr') ++ List.map Effect effects,
                 match r with
                 | Ok _ => Returned
                 | Raise e => Raised e
                 end)
            end
        end
  end.

End SubmitAnswer.

(** A configured environment, and collaborators that accept any answer. *)
Definition configured_env (name : string) : option string :=
  if String.eqb name "BASE_DIR" then Some "/home/elf"
  else if String.eqb name "AOC_SESSION" then Some "53616c7465645f5f"
  else None.

Definition accepting_world (year day : Z) (part answer : string) : world :=
  world_with None (Ok (Some right_answer_response)).

(** The message of [submit_answer] when no session token is configured. *)
Definition session_missing : string :=
  "Session token not found. Please run 'python aoc.py' and choose option 0 to set up your session token.".

(** A cache whose only file ends in an entry without a timestamp. *)
Definition undated_history : list (result json) :=
  [Ok (JArr [JObj [("part", JStr "a");
                   ("message", JStr "That's the right answer!")]])].

(** *** The refresh with the errors of the file system

    [check_and_update_example_input] above takes [example.txt] to be readable
    and writable. Here the reads and the write can fail: [example] is [None]
    when the file does not exist, otherwise what opening and reading it
    gives; [write] is what opening it for writing and writing the output of
    [aocd] gives; [read_back] is what reading it again gives. Only the
    [CalledProcessError] of the run is caught. *)
Section ExampleRefreshIO.

Variables (day year : Z).
Variables (day_dir example_file : string).

Definition check_and_update_example_input_io
    (example : option (result string)) (aocd : run_result)
    (write : result unit) (read_back : result string)
  : list example_event * result bool :=
  match example with
  | Some (Ok example_input) =>
      if Str.contains "answer_b: -" example_input then
        match aocd with
        | Completed stdout =>
            match write with
            | Ok _ =>
                match read_back with
                | Ok updated_example_input =>
                    (RunAocdExample day year :: WriteExample stdout
                       :: (if Str.contains "answer_b: -" updated_example_input
                           then []
                           else [Say ("Updated example input for Part B for day '"
                                        ++ str_of_Z day ++ "' of year '"
                                        ++ str_of_Z year ++ "' in "
                                        ++ example_file ++ "." ++ nl)]),
                     Ok true)
                | Raise e =>
                    ([RunAocdExample day year; WriteExample stdout], Raise e)
                end
            | Raise e => ([RunAocdExample day year], Raise e)
            end
        | CalledProcessError _ =>
            ([RunAocdExample day year;
              Say ("Failed to update example input for Part B for day '"
                     ++ str_of_Z day ++ "' of year '" ++ str_of_Z year
                     ++ "' in " ++ example_file ++ "." ++ nl)],
             Ok false)
        | RunRaises e => ([RunAocdExample day year], Raise e)
        end
      else
        ([Say (nl ++ "Puzzle input and example input already exists for day '"
                 ++ str_of_Z day ++ "' of year '" ++ str_of_Z year
                 ++ "' at " ++ day_dir ++ "." ++ nl)],
         Ok false)
  | Some (Raise e) => ([], Raise e)
  | None => ([], Raise TypeError)
  end.

End ExampleRefreshIO.

(** * Properties *)

Example parse_wait_time_4m30s :
  parse_wait_time "You have 4m 30s left to wait." = Ok 270000000.
Proof. reflexivity. Qed.

Example parse_wait_time_one_minute :
  parse_wait_time "please wait one minute before trying again" = Ok 60000000.
Proof. reflexivity. Qed.

Example parse_wait_time_minutes :
  parse_wait_time "Please wait 5 minutes before trying again." = Ok 300000000.
Proof. reflexivity. Qed.

Example parse_wait_time_unmatched :
  parse_wait_time "That's the right answer!" = Ok 0.
Proof. reflexivity. Qed.

Example parse_wait_time_no_prefix :
  parse_wait_time "4m 30s left to wait" = Ok 0.
Proof. reflexivity. Qed.

Example parse_wait_time_overflow :
  parse_wait_time "You have 99999999999999999999m 0s left to wait." = Raise OverflowError.
Proof. reflexivity. Qed.


(** ** Strings *)

Section StringFacts.

Lemma append_assoc (s t u : string) : (s ++ t) ++ u = s ++ t ++ u.
Proof.
  induction s as [|c s IH]; simpl; [reflexivity | now rewrite IH].
Qed.

Lemma append_empty_r (s : string) : s ++ "" = s.
Proof.
  induction s as [|c s IH]; simpl; [reflexivity | now rewrite IH].
Qed.

Lemma length_append (s t : string) :
  String.length (s ++ t) = (String.length s + String.length t)%nat.
Proof.
  induction s as [|c s IH]; simpl; [reflexivity | now rewrite IH].
Qed.

Lemma take_drop (n : nat) (s : string) : Str.take n s ++ Str.drop n s = s.
Proof.
  revert s; induction n as [|n IH]; intros [|c s]; simpl; try reflexivity.
  now rewrite IH.
Qed.

Lemma drop_append (s t : string) : Str.drop (String.length s) (s ++ t) = t.
Proof.
  induction s as [|c s IH]; simpl; [now destruct t | exact IH].
Qed.

Lemma take_append (s t : string) : Str.take (String.length s) (s ++ t) = s.
Proof.
  induction s as [|c s IH]; simpl; [now destruct t | now rewrite IH].
Qed.

Lemma prefix_iff (p s : string) :
  String.prefix p s = true <-> exists rest, s = p ++ rest.
Proof.
  revert s; induction p as [|c p IH]; intros s.
  - split; [intros _; now exists s | intros _; now destruct s].
  - destruct s as [|d s]; simpl.
    + split; [discriminate | intros [rest H]; discriminate].
    + destruct (Ascii.ascii_dec c d) as [->|Hne].
      * rewrite IH. split; intros [rest H]; exists rest.
        -- now rewrite H.
        -- now injection H.
      * split; [discriminate | intros [rest H]; injection H; congruence].
Qed.

Lemma contains_unfold (needle hay : string) :
  Str.contains needle hay =
  if String.prefix needle hay then true
  else match hay with
       | EmptyString => false
       | String _ rest => Str.contains needle rest
       end.
Proof. now destruct hay. Qed.

Lemma contains_iff (needle hay : string) :
  Str.contains needle hay = true <-> has_substring needle hay.
Proof.
  unfold has_substring.
  induction hay as [|c hay IH]; rewrite contains_unfold;
    destruct (String.prefix needle _) eqn:Hp.
  - split; [intros _ | reflexivity].
    apply prefix_iff in Hp as [rest Hp]. now exists "", rest.
  - split; [discriminate|].
    intros [[|b before] [after H]]; simpl in H; [|discriminate].
    assert (String.prefix needle "" = true) by (apply prefix_iff; eauto).
    congruence.
  - split; [intros _ | reflexivity].
    apply prefix_iff in Hp as [rest Hp]. now exists "", rest.
  - rewrite IH. split.
    + intros (before & after & ->). now exists (String c before), after.
    + intros ([|b before] & after & H); simpl in H.
      * assert (String.prefix needle (String c hay) = true)
          by (apply prefix_iff; eauto).
        congruence.
      * injection H as _ ->. eauto.
Qed.

Lemma ci_equal_cons (c : ascii) (s t : string) :
  Str.ci_equal (String c s) t = true ->
  exists d t', t = String d t' /\ Str.ci_eqb c d = true
               /\ Str.ci_equal s t' = true.
Proof.
  destruct t as [|d t']; simpl; [discriminate|].
  intros H. apply andb_true_iff in H as [H1 H2]. now exists d, t'.
Qed.

Lemma lower_is_digit (c : ascii) : Str.is_digit (Str.lower c) = Str.is_digit c.
Proof.
  destruct c as [[] [] [] [] [] [] [] []]; reflexivity.
Qed.

(** A digit is equal, case folded, to digits only. *)
Lemma ci_eqb_digit (c d : ascii) :
  Str.ci_eqb c d = true -> Str.is_digit d = Str.is_digit c.
Proof.
  unfold Str.ci_eqb. intros H. apply Ascii.eqb_eq in H.
  now rewrite <- (lower_is_digit c), <- (lower_is_digit d), H.
Qed.

Lemma span_digits_all (ds s : string) :
  Str.all_digits ds = true ->
  (String.length ds <= Re.span_digits (ds ++ s))%nat.
Proof.
  induction ds as [|c ds IH]; simpl; intros H; [lia|].
  apply andb_true_iff in H as [Hc Hds]. rewrite Hc. specialize (IH Hds). lia.
Qed.

Lemma span_digits_stop (ds : string) (d : ascii) (s : string) :
  Str.all_digits ds = true -> Str.is_digit d = false ->
  Re.span_digits (ds ++ String d s) = String.length ds.
Proof.
  induction ds as [|c ds IH]; simpl; intros H Hd.
  - now rewrite Hd.
  - apply andb_true_iff in H as [Hc Hds]. rewrite Hc. now rewrite IH.
Qed.

Lemma take_span_digits (n : nat) (s : string) :
  (n <= Re.span_digits s)%nat -> Str.all_digits (Str.take n s) = true.
Proof.
  revert s; induction n as [|n IH]; intros s Hn; [reflexivity|].
  destruct s as [|c s]; simpl in *; [lia|].
  destruct (Str.is_digit c); [|lia].
  simpl. apply IH. lia.
Qed.

End StringFacts.

(** ** The matcher against the reading of the patterns *)

Section Matcher.

Lemma backtrack_some k s n groups :
  Re.backtrack k s n = Some groups ->
  exists m rest_groups,
    (1 <= m <= n)%nat /\ k (Str.drop m s) = Some rest_groups
    /\ groups = Str.take m s :: rest_groups.
Proof.
  induction n as [|n IH]; simpl; [discriminate|].
  destruct (k _) as [g|] eqn:Hk.
  - intros [= <-]. exists (S n), g. repeat split; try lia. exact Hk.
  - intros H. destruct (IH H) as (m & g & Hm & Hg & ->).
    exists m, g. repeat split; try lia. exact Hg.
Qed.

Lemma backtrack_finds k s n m :
  (1 <= m <= n)%nat -> k (Str.drop m s) <> None -> Re.backtrack k s n <> None.
Proof.
  induction n as [|n IH]; intros Hm Hk; [lia|].
  cbn [Re.backtrack]. destruct (k (Str.drop (S n) s)) eqn:Hn; [discriminate|].
  apply IH; [|exact Hk].
  destruct (Nat.eq_dec m (S n)) as [->|]; [congruence | lia].
Qed.

Lemma match_here_sound p s groups :
  Re.match_here p s = Some groups -> exists rest, Re.matches p s groups rest.
Proof.
  revert s groups; induction p as [|a p IH]; intros s groups; simpl.
  - intros [= <-]. exists s. constructor.
  - destruct a.
    + destruct s as [|d s]; [discriminate|].
      destruct (Str.ci_eqb c d) eqn:Hc; [|discriminate].
      intros H. destruct (IH _ _ H) as [rest Hr].
      exists rest. now constructor.
    + destruct s as [|d s]; [discriminate|].
      destruct (Ascii.eqb d Re.newline) eqn:Hd; [discriminate|].
      intros H. destruct (IH _ _ H) as [rest Hr].
      exists rest. constructor; [|exact Hr].
      now apply Ascii.eqb_neq.
    + intros H. apply backtrack_some in H as (m & g & Hm & Hg & ->).
      destruct (IH _ _ Hg) as [rest Hr]. exists rest.
      rewrite <- (take_drop m s) at 1.
      constructor; [| apply take_span_digits; lia | exact Hr].
      destruct m; [lia|]. destruct s; simpl in *; [lia | discriminate].
Qed.

Lemma match_here_complete p s groups rest :
  Re.matches p s groups rest -> Re.match_here p s <> None.
Proof.
  induction 1 as [s | c d p s g r Hc _ IH | d p s g r Hd _ IH
                 | ds p s g r Hne Hds _ IH]; simpl.
  - discriminate.
  - now rewrite Hc.
  - apply Ascii.eqb_neq in Hd. now rewrite Hd.
  - apply backtrack_finds with (m := String.length ds).
    + split; [destruct ds; simpl; [congruence | lia]|].
      now apply span_digits_all.
    + now rewrite drop_append.
Qed.

Lemma search_none_iff p s : Re.search p s = None <-> ~ Re.occurs p s.
Proof.
  unfold Re.occurs. induction s as [|c s IH]; simpl.
  - destruct (Re.match_here p "") as [g|] eqn:Hm.
    + split; [discriminate|]. intros H. exfalso. apply H.
      destruct (match_here_sound _ _ _ Hm) as [rest Hr].
      now exists "", "", g, rest.
    + split; [intros _ | reflexivity].
      intros (b & a & g & r & Heq & Hr).
      destruct b; [|discriminate]. simpl in Heq. subst a.
      now apply match_here_complete in Hr.
  - destruct (Re.match_here p (String c s)) as [g|] eqn:Hm.
    + split; [discriminate|]. intros H. exfalso. apply H.
      destruct (match_here_sound _ _ _ Hm) as [rest Hr].
      now exists "", (String c s), g, rest.
    + rewrite IH. split; intros H (b & a & g & r & Heq & Hr); apply H.
      * destruct b as [|c' b]; simpl in Heq.
        -- subst a. now apply match_here_complete in Hr.
        -- injection Heq as _ ->. now exists b, a, g, r.
      * exists (String c b), a, g, r. split; [now rewrite Heq | exact Hr].
Qed.

Lemma search_skip p before s :
  Re.no_match_before p (String.length before) (before ++ s) = true ->
  Re.search p (before ++ s) = Re.search p s.
Proof.
  induction before as [|c before IH]; simpl; [reflexivity|].
  destruct (Re.match_here p (String c (before ++ s))); [discriminate|].
  exact IH.
Qed.

Lemma search_here p s groups :
  Re.match_here p s = Some groups -> Re.search p s = Some groups.
Proof.
  intros H. destruct s; simpl in *; now rewrite H.
Qed.

Lemma match_here_chr c p d s :
  Re.match_here (Re.Chr c :: p) (String d s)
  = if Str.ci_eqb c d then Re.match_here p s else None.
Proof. reflexivity. Qed.

Lemma match_here_lits lit text p s :
  Str.ci_equal lit text = true ->
  Re.match_here (Re.lits lit ++ p) (text ++ s) = Re.match_here p s.
Proof.
  revert text; induction lit as [|c lit IH]; intros [|d text]; simpl;
    try discriminate; [reflexivity|].
  intros H. apply andb_true_iff in H as [Hc Hl]. rewrite Hc. now apply IH.
Qed.

(** A run of digits followed by a literal that is not a digit: the greedy
    group takes the whole run at its first try. *)
Lemma match_here_digits_chr ds c d p s groups :
  ds <> "" -> Str.all_digits ds = true ->
  Str.ci_eqb c d = true -> Str.is_digit c = false ->
  Re.match_here p s = Some groups ->
  Re.match_here (Re.Digits :: Re.Chr c :: p) (ds ++ String d s)
  = Some (ds :: groups).
Proof.
  intros Hne Hds Hc Hnd Hm.
  assert (Hd : Str.is_digit d = false) by (now rewrite (ci_eqb_digit c d)).
  cbn [Re.match_here]. rewrite span_digits_stop by assumption.
  destruct ds as [|c0 ds]; [congruence|].
  cbn [String.length Re.backtrack].
  change (S (String.length ds)) with (String.length (String c0 ds)).
  rewrite drop_append, take_append. now rewrite Hc, Hm.
Qed.

End Matcher.

(** ** The wait-time parser *)

Section Parser.

Lemma make_in_range minutes seconds :
  Timedelta.in_range ((60 * minutes + seconds) * Timedelta.us_per_second) = true ->
  Timedelta.make minutes seconds
  = Ok ((60 * minutes + seconds) * Timedelta.us_per_second).
Proof.
  intros H. unfold Timedelta.make, Timedelta.of_us. now rewrite H.
Qed.

Lemma py_int_short s :
  (String.length s <= Str.max_str_digits)%nat -> Str.py_int s = Ok (Str.int s).
Proof.
  intros H. unfold Str.py_int.
  apply Nat.ltb_ge in H. now rewrite H.
Qed.

(** The pattern of the code, matched at the start of a message of its
    shape, captures the two runs of digits. *)
Lemma match_here_wait_left you dm m ds tail c after :
  Str.ci_equal "You have " you = true ->
  Str.ci_equal "m " m = true ->
  Str.ci_equal "s left to wait" tail = true ->
  dm <> "" -> Str.all_digits dm = true ->
  ds <> "" -> Str.all_digits ds = true ->
  c <> Re.newline ->
  Re.match_here wait_left_re (you ++ dm ++ m ++ ds ++ tail ++ String c after)
  = Some [dm; ds].
Proof.
  intros Hyou Hm Htail Hdm1 Hdm2 Hds1 Hds2 Hc.
  unfold wait_left_re. rewrite match_here_lits by exact Hyou.
  apply ci_equal_cons in Hm as (m0 & m' & -> & Hm0 & Hm).
  apply ci_equal_cons in Hm as (m1 & m'' & -> & Hm1 & Hm).
  destruct m''; [clear Hm | discriminate Hm].
  apply ci_equal_cons in Htail as (t0 & tail' & -> & Ht0 & Htail).
  change (Re.match_here
            (Re.Digits :: Re.Chr "m"
               :: (Re.Chr " " :: Re.Digits :: Re.Chr "s"
                     :: (Re.lits " left to wait" ++ [Re.AnyChar])))
            (dm ++ String m0 (String m1 (ds ++ String t0 (tail' ++ String c after))))
          = Some [dm; ds]).
  apply match_here_digits_chr; try assumption; [reflexivity|].
  rewrite match_here_chr, Hm1.
  apply match_here_digits_chr; try assumption; [reflexivity|].
  rewrite match_here_lits by exact Htail.
  cbn [Re.match_here]. apply Ascii.eqb_neq in Hc. now rewrite Hc.
Qed.

End Parser.

(** C6, as the code has it. A message in which the words [You have], the
    minutes [<m>m], the seconds [<s>s], the words [left to wait] and one more
    character other than a newline follow each other, in any letter case,
    with no earlier match of the pattern, parses to [m] minutes plus [s]
    seconds whenever that duration fits a timedelta. *)
Theorem parse_wait_time_you_have before you dm m ds tail c after :
  Str.ci_equal "You have " you = true ->
  Str.ci_equal "m " m = true ->
  Str.ci_equal "s left to wait" tail = true ->
  dm <> "" -> Str.all_digits dm = true ->
  ds <> "" -> Str.all_digits ds = true ->
  c <> Re.newline ->
  Re.no_match_before wait_left_re (String.length before)
    (before ++ you ++ dm ++ m ++ ds ++ tail ++ String c after) = true ->
  (String.length dm <= Str.max_str_digits)%nat ->
  (String.length ds <= Str.max_str_digits)%nat ->
  Timedelta.in_range
    ((60 * Str.int dm + Str.int ds) * Timedelta.us_per_second) = true ->
  parse_wait_time (before ++ you ++ dm ++ m ++ ds ++ tail ++ String c after)
  = Ok ((60 * Str.int dm + Str.int ds) * Timedelta.us_per_second).
Proof.
  intros Hyou Hm Htail Hdm1 Hdm2 Hds1 Hds2 Hc Hleft Hdm3 Hds3 Hrange.
  unfold parse_wait_time.
  rewrite search_skip by exact Hleft.
  rewrite (search_here wait_left_re _ [dm; ds])
    by now apply match_here_wait_left.
  rewrite !py_int_short by assumption. cbn [bind].
  now apply make_in_range.
Qed.

Lemma parse_wait_time_you_have_witness :
  parse_wait_time
    "You gave an answer too recently. you HAVE 4m 30s Left To Wait!"
  = Ok 270000000.
Proof.
  apply (parse_wait_time_you_have
           "You gave an answer too recently. " "you HAVE " "4" "m " "30"
           "s Left To Wait" "!" "");
    try reflexivity; try discriminate; unfold Str.max_str_digits; simpl; lia.
Defined.

(** C6 as stated fails: a message can match [<m>m <s>s left to wait] without
    the words [You have] before it, and the parser then finds no wait. *)
Lemma parse_wait_time_bare_pattern :
  Re.matches spec_left_to_wait_re "4m 30s left to wait" ["4"; "30"] ""
  /\ Timedelta.make 4 30 = Ok 270000000
  /\ parse_wait_time "4m 30s left to wait" = Ok 0.
Proof.
  split; [|split; reflexivity].
  unfold spec_left_to_wait_re. cbn [Re.lits app].
  apply (Re.matches_digits "4"); [discriminate | reflexivity |].
  do 2 (apply Re.matches_chr; [reflexivity|]).
  apply (Re.matches_digits "30"); [discriminate | reflexivity |].
  repeat (apply Re.matches_chr; [reflexivity|]).
  apply Re.matches_nil.
Qed.

(** C9. A message that matches none of the three patterns parses to the
    zero duration: the parser returns, it does not raise. *)
Theorem parse_wait_time_unrecognised message :
  ~ recognised message -> parse_wait_time message = Ok Timedelta.zero.
Proof.
  intros H. unfold recognised in H. unfold parse_wait_time.
  assert (H1 : Re.search wait_left_re message = None)
    by (apply search_none_iff; tauto).
  assert (H2 : Str.contains "one minute" message = false).
  { destruct (Str.contains "one minute" message) eqn:E; [|reflexivity].
    apply contains_iff in E. tauto. }
  assert (H3 : Re.search minutes_wait_re message = None)
    by (apply search_none_iff; tauto).
  now rewrite H1, H2, H3.
Qed.

(** C9 as stated fails: the parser is not a total function. On a message
    that matches a pattern with a number too large it raises. *)
Lemma parse_wait_time_not_total :
  Re.search wait_left_re "You have 99999999999999999999m 0s left to wait."
  = Some ["99999999999999999999"; "0"]
  /\ parse_wait_time "You have 99999999999999999999m 0s left to wait."
     = Raise OverflowError
  /\ Re.search minutes_wait_re
       "please wait 99999999999999999999 minutes before trying again"
     = Some ["99999999999999999999"]
  /\ parse_wait_time
       "please wait 99999999999999999999 minutes before trying again"
     = Raise OverflowError.
Proof.
  split; [|split; [|split]]; reflexivity.
Qed.

Lemma not_recognised_by_search message :
  Re.search wait_left_re message = None ->
  Str.contains "one minute" message = false ->
  Re.search minutes_wait_re message = None ->
  ~ recognised message.
Proof.
  intros H1 H2 H3 [H | [H | H]].
  - now apply search_none_iff in H1.
  - apply contains_iff in H. congruence.
  - now apply search_none_iff in H3.
Qed.

Lemma parse_wait_time_unrecognised_witness :
  parse_wait_time "That's not the right answer; your answer is too high."
  = Ok Timedelta.zero.
Proof.
  apply parse_wait_time_unrecognised.
  apply not_recognised_by_search; reflexivity.
Defined.

(** ** The feedback store reader *)

Section Reader.

Variable parse : string -> result datetime.

Lemma candidates_cons file files :
  candidates (file :: files)
  = (List.filter wait_indicating (file_last_entry file) ++ candidates files)%list.
Proof.
  unfold candidates, last_entries. simpl. now rewrite filter_app.
Qed.

Lemma truthy_last_entry items e :
  last_entry items = Some e -> Py.truthy (JArr items) = true.
Proof.
  destruct items; [discriminate | reflexivity].
Qed.

Lemma last_entry_none items : last_entry items = None -> items = [].
Proof.
  unfold last_entry. induction items as [|x [|y items] IH]; try easy.
  intros H. apply IH in H. discriminate.
Qed.

(** The reads the loop makes on a well-formed entry. *)
Lemma well_formed_entry_reads e :
  well_formed_entry parse e = true ->
  exists t m message,
    entry_time parse e = Some t /\ entry_message e = Some m
    /\ (when <- Py.getitem "when" e ;; parse_when parse when) = Ok (Aware t)
    /\ Py.get "message" (JStr "") e = Ok message
    /\ Py.contains "wait" message = Ok (Str.contains "wait" m).
Proof.
  unfold well_formed_entry.
  destruct (entry_time parse e) as [t|] eqn:Ht; [|discriminate].
  destruct (entry_message e) as [m|] eqn:Hm; [|discriminate].
  intros _. exists t, m.
  destruct e as [| | | |items|fields]; try discriminate.
  simpl in Ht, Hm |- *.
  destruct (Py.lookup "when" fields) as [[| | |ts| |]|]; try discriminate.
  simpl. destruct (parse ts) as [[t0|t0]|]; try discriminate.
  injection Ht as ->.
  destruct (Py.lookup "message" fields) as [[| | |m0| |]|]; try discriminate;
    injection Hm as ->; eexists; repeat split; reflexivity.
Qed.

Lemma scan_file_well_formed st file cands :
  well_formed_file parse file = true ->
  scan_inv parse st cands ->
  exists st',
    scan_file parse st file = Ok st'
    /\ scan_inv parse st' (cands ++ List.filter wait_indicating (file_last_entry file)).
Proof.
  intros Hwf Hinv.
  destruct file as [[| | | |items|]|]; try discriminate.
  unfold well_formed_file in Hwf. unfold scan_file, file_last_entry.
  cbn [bind].
  destruct (last_entry items) as [e|] eqn:Hlast.
  2:{ apply last_entry_none in Hlast. subst items.
      exists st. simpl. now rewrite app_nil_r. }
  rewrite (truthy_last_entry _ _ Hlast).
  unfold Py.last_item. unfold last_entry in Hlast. rewrite Hlast. cbn [bind].
  destruct (well_formed_entry_reads _ Hwf)
    as (t & m & message & Ht & Hm & Hwhen & Hget & Hcontains).
  unfold bind in Hwhen.
  destruct (Py.getitem "when" e) as [when|]; [|discriminate]. cbn [bind].
  rewrite Hwhen, Hget. cbn [bind]. rewrite Hcontains. cbn [bind].
  cbn [List.filter]. unfold wait_indicating at 1. rewrite Hm.
  destruct (Str.contains "wait" m).
  2:{ exists st. now rewrite app_nil_r. }
  destruct Hinv as [[-> ->] | (e0 & t0 & -> & Ht0 & Hin & Hmax)]; cbn [snd bind].
  - eexists. split; [reflexivity|]. right. exists e, t.
    repeat split; [exact Ht | now left |].
    intros e' [<- | []]. exists t. split; [exact Ht | lia].
  - destruct (t0 <? t) eqn:Hlt; cbn [Datetime.gt bind]; rewrite Hlt.
    + apply Z.ltb_lt in Hlt.
      eexists. split; [reflexivity|]. right. exists e, t.
      repeat split; [exact Ht | apply in_or_app; right; now left |].
      intros e' Hin'. apply in_app_or in Hin' as [Hin' | [<- | []]].
      * destruct (Hmax _ Hin') as (t' & Ht' & Hle). exists t'. split; [exact Ht' | lia].
      * exists t. split; [exact Ht | lia].
    + apply Z.ltb_ge in Hlt.
      eexists. split; [reflexivity|]. right. exists e0, t0.
      repeat split; [exact Ht0 | apply in_or_app; now left |].
      intros e' Hin'. apply in_app_or in Hin' as [Hin' | [<- | []]].
      * exact (Hmax _ Hin').
      * exists t. split; [exact Ht | exact Hlt].
Qed.

Lemma scan_files_well_formed files : forall st cands,
  List.forallb (well_formed_file parse) files = true ->
  scan_inv parse st cands ->
  exists st',
    scan_files parse st files = Ok st'
    /\ scan_inv parse st' (cands ++ candidates files).
Proof.
  induction files as [|file files IH]; intros st cands Hwf Hinv.
  - exists st. split; [reflexivity|]. unfold candidates. simpl. now rewrite app_nil_r.
  - simpl in Hwf. apply andb_true_iff in Hwf as [Hfile Hfiles].
    destruct (scan_file_well_formed _ _ _ Hfile Hinv) as (st1 & Hst1 & Hinv1).
    destruct (IH _ _ Hfiles Hinv1) as (st2 & Hst2 & Hinv2).
    exists st2. cbn [scan_files]. rewrite Hst1. cbn [bind].
    split; [exact Hst2|]. now rewrite candidates_cons, app_assoc.
Qed.

(** The reader on a cache of well-formed histories. *)
Lemma read_well_formed files :
  List.forallb (well_formed_file parse) files = true ->
  exists r,
    read_last_submission_feedback parse (Some files) = Ok r
    /\ match r with
       | None => candidates files = []
       | Some e => In e (candidates files)
                   /\ latest_among parse e (candidates files)
       end.
Proof.
  intros Hwf.
  destruct (scan_files_well_formed files (None, None) [] Hwf)
    as (st & Hst & Hinv); [now left|].
  exists (fst st). unfold read_last_submission_feedback. rewrite Hst. cbn [bind].
  split; [reflexivity|].
  destruct Hinv as [[-> H] | (e & t & -> & Ht & Hin & Hmax)]; cbn [fst].
  - exact H.
  - split; [exact Hin|]. exists t. split; [exact Ht | exact Hmax].
Qed.

End Reader.

Section ReaderAnyCache.

Variable parse : string -> result datetime.

Lemma scan_file_kept st file st' :
  scan_file parse st file = Ok st' ->
  (forall fb, fst st = Some fb -> kept parse fb) ->
  forall fb, fst st' = Some fb -> kept parse fb.
Proof.
  unfold scan_file. intros H Hst.
  destruct file as [data|]; [|discriminate]. cbn [bind] in H.
  destruct (Py.truthy data); [|injection H as <-; exact Hst].
  destruct (Py.last_item data) as [latest|]; [|discriminate]. cbn [bind] in H.
  destruct (Py.getitem "when" latest) as [when|] eqn:Hwhen; [|discriminate].
  cbn [bind] in H.
  destruct (parse_when parse when) as [t|] eqn:Ht; [|discriminate].
  cbn [bind] in H.
  destruct (Py.get "message" (JStr "") latest) as [message|] eqn:Hget;
    [|discriminate].
  cbn [bind] in H.
  destruct (Py.contains "wait" message) as [[|]|] eqn:Hc; try discriminate;
    cbn [bind] in H; [|injection H as <-; exact Hst].
  destruct (match snd st with
            | Some latest_submission_time =>
                Datetime.gt t latest_submission_time
            | None => Ok true
            end) as [[|]|]; try discriminate; cbn [bind] in H;
    injection H as <-; [|exact Hst].
  intros fb [= <-]. now exists when, t, message.
Qed.

Lemma scan_files_kept files : forall st st',
  scan_files parse st files = Ok st' ->
  (forall fb, fst st = Some fb -> kept parse fb) ->
  forall fb, fst st' = Some fb -> kept parse fb.
Proof.
  induction files as [|file files IH]; intros st st' H Hst; cbn [scan_files] in H.
  - now injection H as <-.
  - destruct (scan_file parse st file) as [st1|] eqn:H1; [|discriminate].
    cbn [bind] in H. eapply IH; [exact H|].
    eapply scan_file_kept; eassumption.
Qed.

(** Whatever the cache holds, an entry the reader returns passed its
    checks. *)
Lemma read_kept c fb :
  read_last_submission_feedback parse c = Ok (Some fb) -> kept parse fb.
Proof.
  destruct c as [files|]; [|discriminate]. unfold read_last_submission_feedback.
  destruct (scan_files parse (None, None) files) as [st|] eqn:Hst; [|discriminate].
  cbn [bind]. intros [= H].
  eapply scan_files_kept; [exact Hst | discriminate | exact H].
Qed.

Lemma scan_files_app before after : forall st,
  scan_files parse st (before ++ after)
  = st' <- scan_files parse st before ;; scan_files parse st' after.
Proof.
  induction before as [|file before IH]; intros st; [reflexivity|].
  cbn [app scan_files]. destruct (scan_file parse st file); [|reflexivity].
  cbn [bind]. apply IH.
Qed.

(** The first file that cannot be read ends the scan with its error. *)
Lemma read_raises before e after :
  List.forallb (well_formed_file parse) before = true ->
  read_last_submission_feedback parse (Some (before ++ Raise e :: after)%list)
  = Raise e.
Proof.
  intros Hwf. unfold read_last_submission_feedback. rewrite scan_files_app.
  destruct (scan_files_well_formed parse before (None, None) [] Hwf)
    as (st & -> & _); [now left|].
  reflexivity.
Qed.

(** The calculator on an entry whose message lacks [wait]. *)
Lemma remaining_no_wait fb m now :
  Py.get "message" (JStr "") fb = Ok (JStr m) ->
  Str.contains "wait" m = false ->
  remaining_wait_time_of parse (Some fb) now = Ok Timedelta.zero.
Proof.
  intros Hget Hm. unfold remaining_wait_time_of.
  destruct (Py.truthy fb); [|reflexivity].
  rewrite Hget. cbn [bind Py.contains]. now rewrite Hm.
Qed.

(** The calculator on a kept entry: the wait, less the time elapsed,
    not below zero. *)
Lemma remaining_of_kept fb ts msg T W now :
  kept parse fb ->
  Py.getitem "when" fb = Ok (JStr ts) -> parse ts = Ok (Aware T) ->
  Py.getitem "message" fb = Ok (JStr msg) -> parse_wait_time msg = Ok W ->
  Timedelta.in_range (W - (now - T)) = true ->
  remaining_wait_time_of parse (Some fb) now = Ok (Z.max 0 (W - (now - T))).
Proof.
  intros (when & t & message & _ & _ & Hget & Hc) Hwhen HT Hmsg HW Hrange.
  unfold remaining_wait_time_of.
  destruct fb as [| | | |items|fields]; try discriminate.
  cbn [Py.getitem Py.get] in *.
  destruct (Py.lookup "message" fields) as [v|] eqn:Hl; [|discriminate].
  injection Hmsg as ->. injection Hget as <-.
  destruct (Py.lookup "when" fields) as [v|] eqn:Hw; [|discriminate].
  injection Hwhen as ->.
  assert (Ht : Py.truthy (JObj fields) = true) by (destruct fields; [discriminate|reflexivity]).
  rewrite Ht. cbn [bind]. rewrite Hc. cbn [bind parse_wait_time_of parse_when].
  rewrite HW, HT. cbn [bind Datetime.sub].
  unfold Timedelta.sub, Timedelta.of_us. rewrite Hrange. cbn [bind].
  f_equal. unfold Timedelta.max, Timedelta.zero.
  destruct (W - (now - T) <? 0) eqn:E;
    [apply Z.ltb_lt in E | apply Z.ltb_ge in E]; lia.
Qed.

End ReaderAnyCache.

Lemma last_entry_snoc items e : last_entry (items ++ [e]) = Some e.
Proof.
  unfold last_entry. rewrite map_app. apply last_last.
Qed.

(** C4, as the code has it. With the cache root absent the reader returns
    none. On a cache of well-formed histories it returns, among the last
    entries of the scanned files whose message contains [wait], one that is
    chronologically latest, and none when no file's last entry qualifies;
    the entries before the last one of a file are not looked at. *)
Theorem read_last_submission_feedback_latest parse :
  read_last_submission_feedback parse None = Ok None
  /\ forall files,
      List.forallb (well_formed_file parse) files = true ->
      exists r,
        read_last_submission_feedback parse (Some files) = Ok r
        /\ match r with
           | None => candidates files = []
           | Some e => In e (candidates files)
                       /\ latest_among parse e (candidates files)
           end.
Proof.
  split; [reflexivity | apply read_well_formed].
Qed.

Lemma read_last_submission_feedback_latest_witness :
  exists r,
    read_last_submission_feedback Iso8601.parse (Some mixed_history) = Ok r
    /\ match r with
       | None => candidates mixed_history = []
       | Some e => In e (candidates mixed_history)
                   /\ latest_among Iso8601.parse e (candidates mixed_history)
       end.
Proof.
  apply (proj2 (read_last_submission_feedback_latest Iso8601.parse)).
  reflexivity.
Defined.

Example read_mixed_history :
  read_last_submission_feedback Iso8601.parse (Some mixed_history)
  = Ok (Some (feedback_entry "b" "2024-12-02 09:00:00.500000+01:00"
                "You have 4m 30s left to wait.")).
Proof. reflexivity. Qed.

(** C4 as stated fails: a wait recorded before the last entry of its file
    qualifies, and the reader still returns none. *)
Lemma read_skips_earlier_entries :
  In scenario_entry (all_entries superseded_history)
  /\ wait_indicating scenario_entry = true
  /\ read_last_submission_feedback Iso8601.parse (Some superseded_history)
     = Ok None.
Proof.
  split; [now left | split; reflexivity].
Qed.

(** C10. An entry the reader returns has a message that contains [wait];
    the last entry of a history is returned exactly when its message
    contains [wait]; and the calculator returns the zero duration for an
    entry whose message lacks [wait] or is missing. *)
Theorem wait_indicating_exactly parse :
  (forall c fb,
      read_last_submission_feedback parse c = Ok (Some fb) ->
      exists message,
        Py.get "message" (JStr "") fb = Ok message
        /\ Py.contains "wait" message = Ok true)
  /\ (forall items e,
         well_formed_entry parse e = true ->
         read_last_submission_feedback parse (Some [Ok (JArr (items ++ [e]))])
         = Ok (if wait_indicating e then Some e else None))
  /\ (forall fb m now,
         Py.get "message" (JStr "") fb = Ok (JStr m) ->
         Str.contains "wait" m = false ->
         remaining_wait_time_of parse (Some fb) now = Ok Timedelta.zero)
  /\ (forall fields now,
         Py.lookup "message" fields = None ->
         remaining_wait_time_of parse (Some (JObj fields)) now = Ok Timedelta.zero).
Proof.
  repeat split.
  - intros c fb H. apply read_kept in H as (when & t & message & _ & _ & Hg & Hc).
    now exists message.
  - intros items e Hwf.
    destruct (read_well_formed parse [Ok (JArr (items ++ [e]))]) as (r & -> & Hr).
    { cbn [forallb well_formed_file]. now rewrite last_entry_snoc, Hwf. }
    f_equal. unfold candidates, last_entries in Hr.
    cbn [flat_map file_last_entry] in Hr. rewrite last_entry_snoc in Hr.
    cbn [app filter] in Hr.
    destruct (wait_indicating e), r as [e'|]; try easy.
    destruct Hr as [[<- | []] _]. reflexivity.
  - intros fb m now. apply remaining_no_wait.
  - intros fields now H. apply remaining_no_wait with (m := "").
    + cbn [Py.get]. now rewrite H.
    + reflexivity.
Qed.

Lemma wait_indicating_exactly_witness :
  (exists message,
      Py.get "message" (JStr "") scenario_entry = Ok message
      /\ Py.contains "wait" message = Ok true)
  /\ read_last_submission_feedback Iso8601.parse
       (Some [Ok (JArr ([scenario_entry] ++ [accepted_entry]))]) = Ok None
  /\ remaining_wait_time_of Iso8601.parse (Some accepted_entry) 0 = Ok 0
  /\ remaining_wait_time_of Iso8601.parse
       (Some (JObj [("when", JStr "2024-12-01T10:00:00-05:00")])) 0 = Ok 0.
Proof.
  destruct (wait_indicating_exactly Iso8601.parse) as (H1 & H2 & H3 & H4).
  split; [|split; [|split]].
  - apply (H1 (Some [Ok (JArr [scenario_entry])])). reflexivity.
  - apply (H2 [scenario_entry] accepted_entry). reflexivity.
  - apply (H3 accepted_entry "That's the right answer!"); reflexivity.
  - apply H4. reflexivity.
Defined.

(** The substring is compared as it is written: capitals do not count. *)
Example wait_indicating_case_sensitive :
  wait_indicating
    (feedback_entry "a" "2024-12-01T10:00:00-05:00" "Please WAIT 5 minutes.")
  = false.
Proof. reflexivity. Qed.

(** C3, as the code has it. The calculator returns zero when no qualifying
    entry can be found: with the cache root absent, on well-formed histories
    none of which ends in a wait, and whenever the reader returns none. For
    the entry the reader selected, recorded at [T] with a parsed wait [W]
    such that [W - (now - T)] fits a timedelta, it returns
    [max(0, W - (now - T))]: never a negative duration, and zero from
    [T + W] on. When the reader raises, the calculator raises the same
    exception instead of returning zero. *)
Theorem calculate_remaining_wait_time_max parse now :
  calculate_remaining_wait_time parse None now = Ok 0
  /\ (forall files,
         List.forallb (well_formed_file parse) files = true ->
         candidates files = [] ->
         calculate_remaining_wait_time parse (Some files) now = Ok 0)
  /\ (forall c,
         read_last_submission_feedback parse c = Ok None ->
         calculate_remaining_wait_time parse c now = Ok 0)
  /\ (forall c fb ts msg T W,
         read_last_submission_feedback parse c = Ok (Some fb) ->
         Py.getitem "when" fb = Ok (JStr ts) -> parse ts = Ok (Aware T) ->
         Py.getitem "message" fb = Ok (JStr msg) -> parse_wait_time msg = Ok W ->
         Timedelta.in_range (W - (now - T)) = true ->
         calculate_remaining_wait_time parse c now
         = Ok (Z.max 0 (W - (now - T)))
         /\ 0 <= Z.max 0 (W - (now - T))
         /\ (T + W <= now -> calculate_remaining_wait_time parse c now = Ok 0))
  /\ (forall c e,
         read_last_submission_feedback parse c = Raise e ->
         calculate_remaining_wait_time parse c now = Raise e).
Proof.
  unfold calculate_remaining_wait_time.
  split; [reflexivity | split; [|split; [|split]]].
  - intros files Hwf Hnone.
    destruct (read_well_formed parse files Hwf) as (r & -> & Hr).
    destruct r as [e|]; [|reflexivity].
    destruct Hr as [Hin _]. rewrite Hnone in Hin. destruct Hin.
  - now intros c ->.
  - intros c fb ts msg T W Hread Hwhen HT Hmsg HW Hrange.
    pose proof (read_kept _ _ _ Hread) as Hkept.
    rewrite Hread. cbn [bind].
    rewrite (remaining_of_kept parse fb ts msg T W now) by assumption.
    split; [reflexivity | split; [lia|]].
    intros Hlate. f_equal. lia.
  - now intros c e ->.
Qed.

Lemma calculate_remaining_wait_time_max_witness :
  calculate_remaining_wait_time Iso8601.parse
    (Some [Ok (JArr [scenario_entry])]) 1733065230000000 = Ok 30000000
  /\ calculate_remaining_wait_time Iso8601.parse
       (Some [Ok (JArr [scenario_entry])]) 1733065265000000 = Ok 0
  /\ calculate_remaining_wait_time Iso8601.parse
       (Some superseded_history) 1733065230000000 = Ok 0
  /\ calculate_remaining_wait_time Iso8601.parse
       (Some corrupt_history) 1733065230000000 = Raise JSONDecodeError.
Proof.
  split; [|split; [|split]].
  - destruct (calculate_remaining_wait_time_max Iso8601.parse 1733065230000000)
      as (_ & _ & _ & H & _).
    apply (H (Some [Ok (JArr [scenario_entry])]) scenario_entry
             "2024-12-01T10:00:00-05:00" "You have 1m 0s left to wait."
             1733065200000000 60000000); reflexivity.
  - destruct (calculate_remaining_wait_time_max Iso8601.parse 1733065265000000)
      as (_ & _ & _ & H & _).
    apply (H (Some [Ok (JArr [scenario_entry])]) scenario_entry
             "2024-12-01T10:00:00-05:00" "You have 1m 0s left to wait."
             1733065200000000 60000000); try reflexivity.
    vm_compute. discriminate.
  - destruct (calculate_remaining_wait_time_max Iso8601.parse 1733065230000000)
      as (_ & H & _).
    apply (H superseded_history); reflexivity.
  - destruct (calculate_remaining_wait_time_max Iso8601.parse 1733065230000000)
      as (_ & _ & _ & _ & H).
    apply (H (Some corrupt_history)). reflexivity.
Defined.

(** C3 as stated fails: no entry of these two caches is a wait, and the
    calculator does not return zero: it raises, on the file that does not
    decode and on the last entry that has no [when]. *)
Lemma calculate_raises_without_a_wait :
  List.existsb wait_indicating (all_entries corrupt_history) = false
  /\ calculate_remaining_wait_time Iso8601.parse (Some corrupt_history)
       1733065230000000 = Raise JSONDecodeError
  /\ List.existsb wait_indicating (all_entries undated_history) = false
  /\ calculate_remaining_wait_time Iso8601.parse (Some undated_history)
       1733065230000000 = Raise KeyError.
Proof.
  split; [|split; [|split]]; reflexivity.
Qed.

(** ** The countdown presenter *)

Section Countdown.

Lemma countdown_loop_sleeps remaining :
  count is_sleep (countdown_loop remaining)
  = Z.to_nat ((remaining + 999999) / 1000000).
Proof.
  funelim (countdown_loop remaining).
  - unfold count in *. cbn [filter is_sleep List.length]. rewrite H.
    unfold Timedelta.us_per_second.
    replace (remaining + 999999) with (remaining - 1000000 + 999999 + 1 * 1000000) by lia.
    rewrite Z.div_add by lia.
    assert (0 <= (remaining - 1000000 + 999999) / 1000000)
      by (apply Z.div_pos; lia).
    lia.
  - assert ((remaining + 999999) / 1000000 <= 0); [|unfold count; simpl; lia].
    assert ((remaining + 999999) / 1000000 < 1); [|lia].
    apply Z.div_lt_upper_bound; lia.
Qed.

Lemma countdown_loop_submits remaining :
  count is_submit (countdown_loop remaining) = 0%nat.
Proof.
  funelim (countdown_loop remaining); [|reflexivity].
  unfold count in *. cbn [filter is_submit]. exact H.
Qed.

Lemma count_app f tr tr' : count f (tr ++ tr') = (count f tr + count f tr')%nat.
Proof.
  unfold count. now rewrite filter_app, length_app.
Qed.

End Countdown.

Section CountdownFacts.

Lemma slept_app tr tr' : slept (tr ++ tr') = slept tr + slept tr'.
Proof.
  induction tr as [|e tr IH]; [reflexivity|].
  destruct e; cbn [app slept]; rewrite IH; lia.
Qed.

Lemma countdown_loop_slept remaining :
  slept (countdown_loop remaining) = Z.max 0 ((remaining + 999999) / 1000000).
Proof.
  funelim (countdown_loop remaining).
  - cbn [slept]. rewrite H. unfold Timedelta.us_per_second.
    replace (remaining + 999999)
      with (remaining - 1000000 + 999999 + 1 * 1000000) by lia.
    rewrite Z.div_add by lia.
    assert (0 <= (remaining - 1000000 + 999999) / 1000000)
      by (apply Z.div_pos; lia).
    lia.
  - assert ((remaining + 999999) / 1000000 < 1)
      by (apply Z.div_lt_upper_bound; lia).
    cbn [slept]. lia.
Qed.

Lemma countdown_loop_idle remaining :
  remaining <= 0 -> countdown_loop remaining = [].
Proof.
  intros H. funelim (countdown_loop remaining); [lia | reflexivity].
Qed.

Lemma countdown_loop_seconds remaining :
  List.Forall (fun e => is_sleep e = true -> e = Sleep 1)
    (countdown_loop remaining).
Proof.
  funelim (countdown_loop remaining); [|constructor].
  constructor; [discriminate|]. constructor; [reflexivity | exact H].
Qed.

End CountdownFacts.

(** ** The dispatcher *)

Section DispatcherFacts.

Variable parse : string -> result datetime.
Variable w : world.
Variables (year day : Z) (part answer : string).

Let run := submit_answer_attempt parse w year day part answer.

Lemma run_already_answered :
  answered w = Ok true ->
  run = ([QueryAnswered year day part;
          Print ("Answer for part " ++ part ++ " of day " ++ str_of_Z day
                   ++ " of year " ++ str_of_Z year
                   ++ " has already been submitted." ++ nl)],
         Ok tt).
Proof.
  intros H. unfold run, submit_answer_attempt, Prog.bind, Prog.emit, Prog.lift.
  rewrite H. unfold print, Prog.emit. cbn [app].
  now rewrite !append_assoc.
Qed.

Lemma run_waiting remaining :
  answered w = Ok false ->
  calculate_remaining_wait_time parse (feedback_cache w) (now w) = Ok remaining ->
  0 < remaining ->
  run = ((QueryAnswered year day part :: countdown_loop remaining
            ++ [Print (nl ++ "You may now submit your answer." ++ nl)])%list,
         Ok tt).
Proof.
  intros Ha Hc Hpos.
  unfold run, submit_answer_attempt, Prog.bind, Prog.emit, Prog.lift.
  rewrite Ha, Hc. apply Z.ltb_lt in Hpos. rewrite Hpos.
  unfold display_countdown_timer, print, Prog.bind, Prog.emit.
  cbn [app]. now rewrite !append_assoc.
Qed.

Lemma run_reader_raises e :
  answered w = Ok false ->
  read_last_submission_feedback parse (feedback_cache w) = Raise e ->
  run = ([QueryAnswered year day part], Raise e).
Proof.
  intros Ha Hr.
  unfold run, submit_answer_attempt, Prog.bind, Prog.emit, Prog.lift.
  rewrite Ha. unfold calculate_remaining_wait_time. now rewrite Hr.
Qed.

Lemma scan_paragraphs_unmarked_nil calls paragraphs :
  unmarked paragraphs = true ->
  scan_paragraphs w year day calls paragraphs = ([], Ok tt).
Proof.
  induction paragraphs as [|text rest IH]; [reflexivity|].
  cbn [unmarked forallb]. intros H.
  apply andb_true_iff in H as [H Hrest].
  apply andb_true_iff in H as [H1 H2].
  apply negb_true_iff in H1, H2.
  cbn [scan_paragraphs]. rewrite H1, H2. exact (IH Hrest).
Qed.

(** When the refresh never raises, it is called once for every marked
    paragraph the loop reaches. *)
Lemma scan_paragraphs_refreshes dir paragraphs : forall calls,
  day_directory w = Ok dir ->
  (forall k, is_ok (refresh_outcome w k) = true) ->
  count is_refresh (Prog.trace (scan_paragraphs w year day calls paragraphs))
  = marked paragraphs.
Proof.
  unfold marked.
  induction paragraphs as [|text rest IH]; intros calls Hdir Hok; [reflexivity|].
  cbn [scan_paragraphs scanned].
  destruct (Str.contains "You have completed Day" text); [reflexivity|].
  cbn [filter].
  destruct (Str.contains "[Continue to Part Two]" text); [|now apply IH].
  specialize (IH (S calls) Hdir Hok). specialize (Hok calls).
  unfold Prog.bind, Prog.lift, Prog.emit. rewrite Hdir.
  destruct (refresh_outcome w calls); [|discriminate].
  destruct (scan_paragraphs w year day (S calls) rest) as [tr r].
  cbn [Prog.trace fst app List.length] in *.
  unfold count in *. cbn [filter is_refresh List.length]. now rewrite IH.
Qed.

End DispatcherFacts.

(** C2. When the status query reports the part as answered, the dispatcher
    says so and stops: the attempt consists of the query and that one
    message, with no submission. *)
Theorem submit_answer_attempt_already_answered parse w year day part answer :
  answered w = Ok true ->
  submit_answer_attempt parse w year day part answer
  = ([QueryAnswered year day part;
      Print ("Answer for part " ++ part ++ " of day " ++ str_of_Z day
               ++ " of year " ++ str_of_Z year
               ++ " has already been submitted." ++ nl)],
     Ok tt)
  /\ count is_submit
       (Prog.trace (submit_answer_attempt parse w year day part answer)) = 0%nat.
Proof.
  intros H.
  rewrite (run_already_answered parse w year day part answer H).
  split; reflexivity.
Qed.

Lemma submit_answer_attempt_already_answered_witness :
  count is_submit
    (Prog.trace (submit_answer_attempt Iso8601.parse answered_world 2024 1 "a" "42"))
  = 0%nat.
Proof.
  apply (submit_answer_attempt_already_answered
           Iso8601.parse answered_world 2024 1 "a" "42").
  reflexivity.
Defined.

(** C1, as the code has it. When the part is not answered yet and the
    remaining cooldown is positive, the dispatcher runs the countdown for the
    whole of it: it sleeps one second for every second begun, so the seconds
    slept cover the remaining time and exceed it by less than a second. It
    then announces that the answer may now be submitted, and stops there:
    the attempt issues no submission. *)
Theorem submit_answer_attempt_waits parse w year day part answer remaining :
  answered w = Ok false ->
  calculate_remaining_wait_time parse (feedback_cache w) (now w) = Ok remaining ->
  0 < remaining ->
  submit_answer_attempt parse w year day part answer
  = ((QueryAnswered year day part :: countdown_loop remaining
        ++ [Print (nl ++ "You may now submit your answer." ++ nl)])%list,
     Ok tt)
  /\ count is_sleep
       (Prog.trace (submit_answer_attempt parse w year day part answer))
     = Z.to_nat ((remaining + 999999) / 1000000)
  /\ List.Forall (fun e => is_sleep e = true -> e = Sleep 1)
       (Prog.trace (submit_answer_attempt parse w year day part answer))
  /\ slept (Prog.trace (submit_answer_attempt parse w year day part answer))
     = (remaining + 999999) / 1000000
  /\ remaining
     <= Timedelta.us_per_second
        * slept (Prog.trace (submit_answer_attempt parse w year day part answer))
     < remaining + Timedelta.us_per_second
  /\ count is_submit
       (Prog.trace (submit_answer_attempt parse w year day part answer)) = 0%nat.
Proof.
  intros Ha Hc Hpos.
  rewrite (run_waiting parse w year day part answer remaining Ha Hc Hpos).
  split; [reflexivity|]. cbn [Prog.trace fst].
  assert (Hs : slept (QueryAnswered year day part :: countdown_loop remaining
                        ++ [Print (nl ++ "You may now submit your answer." ++ nl)])
               = (remaining + 999999) / 1000000).
  { cbn [slept]. rewrite slept_app, countdown_loop_slept. cbn [slept].
    assert (0 <= (remaining + 999999) / 1000000) by (apply Z.div_pos; lia).
    lia. }
  rewrite Hs.
  change (QueryAnswered year day part :: ?l)
    with ([QueryAnswered year day part] ++ l)%list.
  rewrite !count_app, countdown_loop_sleeps, countdown_loop_submits.
  split; [unfold count; cbn [filter is_sleep List.length]; lia|].
  split.
  { apply Forall_app. split; [constructor; [discriminate | constructor]|].
    apply Forall_app. split; [apply countdown_loop_seconds|].
    constructor; [discriminate | constructor]. }
  split; [reflexivity|].
  split; [|unfold count; cbn [filter is_submit List.length]; lia].
  unfold Timedelta.us_per_second.
  pose proof (Z.div_mod (remaining + 999999) 1000000 ltac:(lia)) as Hd.
  pose proof (Z.mod_pos_bound (remaining + 999999) 1000000 ltac:(lia)) as Hm.
  lia.
Qed.

Lemma submit_answer_attempt_waits_witness :
  count is_sleep
    (Prog.trace (submit_answer_attempt Iso8601.parse scenario_world 2024 1 "a" "42"))
  = 30%nat
  /\ slept
       (Prog.trace (submit_answer_attempt Iso8601.parse scenario_world 2024 1 "a" "42"))
     = 30
  /\ count is_submit
       (Prog.trace (submit_answer_attempt Iso8601.parse scenario_world 2024 1 "a" "42"))
     = 0%nat.
Proof.
  destruct (submit_answer_attempt_waits
              Iso8601.parse scenario_world 2024 1 "a" "42" 30000000
              eq_refl eq_refl eq_refl)
    as (_ & H1 & _ & H2 & _ & H3).
  split; [exact H1 | split; [exact H2 | exact H3]].
Defined.

(** C1 as stated fails: in the scenario of the specification the countdown
    sleeps its thirty seconds and the attempt ends without a submission. *)
Lemma scenario_waits_without_submitting :
  calculate_remaining_wait_time Iso8601.parse
    (feedback_cache scenario_world) (now scenario_world) = Ok 30000000
  /\ count is_sleep
       (Prog.trace (submit_answer_attempt Iso8601.parse scenario_world 2024 1 "a" "42"))
     = 30%nat
  /\ slept
       (Prog.trace (submit_answer_attempt Iso8601.parse scenario_world 2024 1 "a" "42"))
     = 30
  /\ count is_submit
       (Prog.trace (submit_answer_attempt Iso8601.parse scenario_world 2024 1 "a" "42"))
     <> 1%nat.
Proof.
  split; [|split; [|split]]; vm_compute;
    [reflexivity | reflexivity | reflexivity | discriminate].
Qed.

(** C5, as the code has it. The reader returns a result when the cache root
    is absent or every scanned file is a well-formed history. It does not
    skip a file that cannot be opened or decoded: the error of the first such
    file leaves the reader, and the dispatcher, which does not catch it, ends
    the attempt there without a submission. *)
Theorem read_last_submission_feedback_propagates parse :
  read_last_submission_feedback parse None = Ok None
  /\ (forall files,
         List.forallb (well_formed_file parse) files = true ->
         is_ok (read_last_submission_feedback parse (Some files)) = true)
  /\ (forall before e after,
         List.forallb (well_formed_file parse) before = true ->
         read_last_submission_feedback parse
           (Some (before ++ Raise e :: after)%list) = Raise e)
  /\ (forall w year day part answer before e after,
         answered w = Ok false ->
         feedback_cache w = Some (before ++ Raise e :: after)%list ->
         List.forallb (well_formed_file parse) before = true ->
         submit_answer_attempt parse w year day part answer
         = ([QueryAnswered year day part], Raise e)).
Proof.
  split; [reflexivity | split; [|split]].
  - intros files Hwf.
    destruct (read_well_formed parse files Hwf) as (r & -> & _). reflexivity.
  - intros before e after. apply read_raises.
  - intros w year day part answer before e after Ha Hc Hwf.
    apply run_reader_raises; [exact Ha|].
    rewrite Hc. now apply read_raises.
Qed.

Lemma read_last_submission_feedback_propagates_witness :
  is_ok (read_last_submission_feedback Iso8601.parse (Some mixed_history)) = true
  /\ read_last_submission_feedback Iso8601.parse
       (Some (mixed_history ++ Raise OSError :: superseded_history)%list)
     = Raise OSError
  /\ submit_answer_attempt Iso8601.parse
       (world_with (Some ([] ++ Raise JSONDecodeError :: [Ok (JArr [accepted_entry])])%list)
          (Ok (Some right_answer_response)))
       2024 1 "a" "42"
     = ([QueryAnswered 2024 1 "a"], Raise JSONDecodeError).
Proof.
  destruct (read_last_submission_feedback_propagates Iso8601.parse)
    as (_ & H1 & H2 & H3).
  split; [|split].
  - apply H1. reflexivity.
  - apply H2. reflexivity.
  - apply (H3 _ 2024 1 "a" "42" [] JSONDecodeError [Ok (JArr [accepted_entry])]);
      reflexivity.
Defined.

(** C5 as stated fails: a file that does not decode is not skipped, the
    read raises, and the attempt ends before any submission. *)
Lemma corrupt_history_is_fatal :
  read_last_submission_feedback Iso8601.parse (Some corrupt_history)
  = Raise JSONDecodeError
  /\ submit_answer_attempt Iso8601.parse
       (world_with (Some corrupt_history) (Ok (Some right_answer_response)))
       2024 1 "a" "42"
     = ([QueryAnswered 2024 1 "a"], Raise JSONDecodeError).
Proof.
  split; reflexivity.
Qed.

(** C7, on a response with the part-two marker in two paragraphs: the loop
    does not stop at the first of them, and the refresh is called twice. *)
Theorem two_markers_refresh_twice :
  submit_answer_attempt Iso8601.parse
    (world_with (Some []) (Ok (Some two_marker_response))) 2024 1 "a" "42"
  = ([QueryAnswered 2024 1 "a"; Submit "42" "a" 2024 1;
      Refresh 1 2024 "aoc/2024/day_01"; Refresh 1 2024 "aoc/2024/day_01"],
     Ok tt)
  /\ count is_refresh
       (Prog.trace
          (submit_answer_attempt Iso8601.parse
             (world_with (Some []) (Ok (Some two_marker_response)))
             2024 1 "a" "42")) = 2%nat.
Proof.
  split; reflexivity.
Qed.

(** The loop stops at a paragraph with [You have completed Day], the other
    marker, and only there. *)
Example completed_day_stops_the_scan :
  submit_answer_attempt Iso8601.parse
    (world_with (Some [])
       (Ok (Some ["That's the right answer! You have completed Day 1!";
                  "[Continue to Part Two]"])))
    2024 1 "b" "42"
  = ([QueryAnswered 2024 1 "b"; Submit "42" "b" 2024 1;
      Print (nl ++ "That's the right answer! " ++ nl)],
     Ok tt).
Proof. reflexivity. Qed.

(** C8, as the code has it. When the article of the response is there and
    none of its paragraphs contains [You have completed Day] or
    [[Continue to Part Two]], the submission is followed by nothing: no
    message, no refresh, no check of the wording of the response. *)
Theorem submit_and_classify_unmarked w year day part answer paragraphs :
  submit_response w = Ok (Some paragraphs) ->
  unmarked paragraphs = true ->
  submit_and_classify w year day part answer
  = ([Submit answer part year day], Ok tt).
Proof.
  intros Hr Hu. unfold submit_and_classify, Prog.bind, Prog.emit, Prog.lift.
  rewrite Hr. now rewrite scan_paragraphs_unmarked_nil.
Qed.

Lemma submit_and_classify_unmarked_witness :
  submit_and_classify
    (world_with (Some []) (Ok (Some wrong_answer_response))) 2024 1 "a" "42"
  = ([Submit "42" "a" 2024 1], Ok tt).
Proof.
  apply (submit_and_classify_unmarked
           (world_with (Some []) (Ok (Some wrong_answer_response)))
           2024 1 "a" "42" wrong_answer_response); reflexivity.
Defined.

(** C8 as stated fails: an accepted and a rejected answer, each in the
    site's wording, lead to the same run of the dispatcher. *)
Lemma right_and_wrong_answer_alike :
  Str.contains "That's the right answer" (String.concat " " right_answer_response) = true
  /\ Str.contains "not the right answer" (String.concat " " wrong_answer_response) = true
  /\ unmarked right_answer_response = true
  /\ unmarked wrong_answer_response = true
  /\ submit_answer_attempt Iso8601.parse
       (world_with (Some []) (Ok (Some right_answer_response))) 2024 1 "a" "42"
     = submit_answer_attempt Iso8601.parse
         (world_with (Some []) (Ok (Some wrong_answer_response))) 2024 1 "a" "42".
Proof.
  repeat split.
Qed.

(** * Further properties *)

(** ** The wait-time parser: the other rules, its results and its errors *)

Section ParserRules.

Lemma matches_groups p s groups rest :
  Re.matches p s groups rest ->
  List.length groups = group_count p
  /\ List.Forall (fun ds => Str.all_digits ds = true) groups.
Proof.
  induction 1 as [s | c d p s g r Hc _ IH | d p s g r Hd _ IH
                 | ds p s g r Hne Hds _ IH]; cbn [group_count List.length].
  - split; [reflexivity | constructor].
  - exact IH.
  - exact IH.
  - destruct IH as [IH1 IH2]. split; [now rewrite IH1 | now constructor].
Qed.

Lemma search_some p s groups :
  Re.search p s = Some groups ->
  Re.occurs p s
  /\ List.length groups = group_count p
  /\ List.Forall (fun ds => Str.all_digits ds = true) groups.
Proof.
  induction s as [|c s IH]; cbn [Re.search].
  - destruct (Re.match_here p "") as [g|] eqn:Hm; [|discriminate].
    intros [= <-]. destruct (match_here_sound _ _ _ Hm) as [rest Hr].
    split; [now exists "", "", g, rest | now apply matches_groups in Hr].
  - destruct (Re.match_here p (String c s)) as [g|] eqn:Hm.
    + intros [= <-]. destruct (match_here_sound _ _ _ Hm) as [rest Hr].
      split; [now exists "", (String c s), g, rest | now apply matches_groups in Hr].
    + intros H. destruct (IH H) as ((b & a & g & r & -> & Hr) & Hg).
      split; [|exact Hg]. now exists (String c b), a, g, r.
Qed.

Lemma digit_value_digit c :
  Str.is_digit c = true -> 0 <= Str.digit_value c <= 9.
Proof.
  unfold Str.is_digit, Str.digit_value. intros H.
  apply andb_true_iff in H as [H1 H2].
  apply Nat.leb_le in H1, H2. lia.
Qed.

Lemma int_acc_nonneg s : forall acc,
  Str.all_digits s = true -> 0 <= acc -> 0 <= Str.int_acc acc s.
Proof.
  induction s as [|c s IH]; intros acc Hs Hacc; cbn [Str.int_acc]; [exact Hacc|].
  cbn [Str.all_digits] in Hs. apply andb_true_iff in Hs as [Hc Hs].
  apply IH; [exact Hs|]. pose proof (digit_value_digit c Hc). lia.
Qed.

Lemma py_int_nonneg s n :
  Str.all_digits s = true -> Str.py_int s = Ok n -> 0 <= n.
Proof.
  unfold Str.py_int. intros Hs.
  destruct (_ <? _)%nat; [discriminate|]. intros [= <-].
  now apply int_acc_nonneg.
Qed.

Lemma py_int_raises s e : Str.py_int s = Raise e -> e = ValueError.
Proof.
  unfold Str.py_int. destruct (_ <? _)%nat; [now intros [= <-] | discriminate].
Qed.

Lemma make_ok minutes seconds d :
  Timedelta.make minutes seconds = Ok d ->
  d = (60 * minutes + seconds) * Timedelta.us_per_second
  /\ Timedelta.in_range d = true.
Proof.
  unfold Timedelta.make, Timedelta.of_us.
  destruct (Timedelta.in_range _) eqn:H; [|discriminate].
  intros [= <-]. now split.
Qed.

Lemma make_raises minutes seconds e :
  Timedelta.make minutes seconds = Raise e -> e = OverflowError.
Proof.
  unfold Timedelta.make, Timedelta.of_us.
  destruct (Timedelta.in_range _); [discriminate | now intros [= <-]].
Qed.

End ParserRules.

(** X1. A message that contains [one minute] and has no match of the first
    pattern parses to exactly one minute, whether or not the third pattern
    matches too. *)
Theorem parse_wait_time_one_minute_rule message :
  ~ Re.occurs wait_left_re message ->
  has_substring "one minute" message ->
  parse_wait_time message = Ok (60 * Timedelta.us_per_second).
Proof.
  intros H1 H2. unfold parse_wait_time.
  apply search_none_iff in H1. apply contains_iff in H2.
  now rewrite H1, H2.
Qed.

Lemma parse_wait_time_one_minute_rule_witness :
  parse_wait_time
    "Please wait one minute; please wait 5 minutes before trying again"
  = Ok (60 * Timedelta.us_per_second).
Proof.
  apply parse_wait_time_one_minute_rule.
  - apply search_none_iff. reflexivity.
  - apply contains_iff. reflexivity.
Defined.

(** X2. A message with no match of the first pattern and without
    [one minute], in which [please wait <n> minutes before trying again]
    occurs in any letter case, parses to [n] minutes: the leftmost occurrence
    counts, and the duration has to fit a timedelta. *)
Theorem parse_wait_time_minutes_rule before please dn tail after :
  Str.ci_equal "please wait " please = true ->
  Str.ci_equal " minutes before trying again" tail = true ->
  dn <> "" -> Str.all_digits dn = true ->
  (String.length dn <= Str.max_str_digits)%nat ->
  ~ Re.occurs wait_left_re (before ++ please ++ dn ++ tail ++ after) ->
  ~ has_substring "one minute" (before ++ please ++ dn ++ tail ++ after) ->
  Re.no_match_before minutes_wait_re (String.length before)
    (before ++ please ++ dn ++ tail ++ after) = true ->
  Timedelta.in_range (60 * Str.int dn * Timedelta.us_per_second) = true ->
  parse_wait_time (before ++ please ++ dn ++ tail ++ after)
  = Ok (60 * Str.int dn * Timedelta.us_per_second).
Proof.
  intros Hp Ht Hdn1 Hdn2 Hlen H1 H2 Hleft Hrange. unfold parse_wait_time.
  apply search_none_iff in H1. rewrite H1.
  destruct (Str.contains "one minute" _) eqn:Hc;
    [apply contains_iff in Hc; contradiction|].
  rewrite search_skip by exact Hleft.
  rewrite (search_here minutes_wait_re _ [dn]).
  - rewrite py_int_short by exact Hlen. cbn [bind].
    unfold Timedelta.make, Timedelta.of_us.
    replace ((60 * Str.int dn + 0) * Timedelta.us_per_second)
      with (60 * Str.int dn * Timedelta.us_per_second) by ring.
    now rewrite Hrange.
  - unfold minutes_wait_re. rewrite match_here_lits by exact Hp.
    apply ci_equal_cons in Ht as (t0 & tail' & -> & Ht0 & Ht).
    change (Re.match_here
              (Re.Digits :: Re.Chr " " :: Re.lits "minutes before trying again" ++ [])
              (dn ++ String t0 (tail' ++ after)) = Some [dn]).
    apply match_here_digits_chr; try assumption; [reflexivity|].
    rewrite match_here_lits by exact Ht. reflexivity.
Qed.

Lemma parse_wait_time_minutes_rule_witness :
  parse_wait_time "Too many guesses. PLEASE WAIT 10 minutes before trying again."
  = Ok 600000000.
Proof.
  apply (parse_wait_time_minutes_rule
           "Too many guesses. " "PLEASE WAIT " "10"
           " minutes before trying again" ".");
    try reflexivity; try discriminate.
  - unfold Str.max_str_digits. simpl. lia.
  - apply search_none_iff. reflexivity.
  - intros H. apply contains_iff in H. discriminate.
Defined.

Lemma parse_wait_time_ok message d :
  parse_wait_time message = Ok d ->
  0 <= d /\ Timedelta.in_range d = true.
Proof.
  unfold parse_wait_time.
  destruct (Re.search wait_left_re message) as [g|] eqn:H1.
  - apply search_some in H1 as (_ & Hlen & Hdig).
    destruct g as [|m [|s [|]]]; try discriminate.
    inversion Hdig as [|? ? Hm Hdig']; subst.
    inversion Hdig' as [|? ? Hs _]; subst.
    destruct (Str.py_int m) as [mv|] eqn:Em; [|discriminate].
    destruct (Str.py_int s) as [sv|] eqn:Es; [|discriminate].
    cbn [bind]. intros H. apply make_ok in H as [-> Hr].
    split; [|exact Hr].
    pose proof (py_int_nonneg m mv Hm Em). pose proof (py_int_nonneg s sv Hs Es).
    unfold Timedelta.us_per_second. lia.
  - destruct (Str.contains "one minute" message).
    + intros H. apply make_ok in H as [-> Hr]. split; [now vm_compute | exact Hr].
    + destruct (Re.search minutes_wait_re message) as [g|] eqn:H3.
      * apply search_some in H3 as (_ & Hlen & Hdig).
        destruct g as [|m g]; [discriminate|].
        inversion Hdig as [|? ? Hm _]; subst.
        destruct (Str.py_int m) as [mv|] eqn:Em; [|discriminate].
        cbn [bind]. intros H. apply make_ok in H as [-> Hr].
        split; [|exact Hr].
        pose proof (py_int_nonneg m mv Hm Em).
        unfold Timedelta.us_per_second. lia.
      * intros [= <-]. split; [reflexivity | now vm_compute].
Qed.

(** X3. Whatever the message, a duration the parser returns is not negative
    and is one a timedelta can hold. *)
Theorem parse_wait_time_nonnegative message d :
  parse_wait_time message = Ok d ->
  0 <= d /\ Timedelta.in_range d = true.
Proof.
  apply parse_wait_time_ok.
Qed.

Lemma parse_wait_time_nonnegative_witness :
  0 <= 270000000 /\ Timedelta.in_range 270000000 = true.
Proof.
  apply (parse_wait_time_nonnegative "You have 4m 30s left to wait.").
  reflexivity.
Defined.

Lemma make_overflow minutes seconds e :
  Timedelta.make minutes seconds = Raise e ->
  e = OverflowError
  /\ Timedelta.in_range ((60 * minutes + seconds) * Timedelta.us_per_second)
     = false.
Proof.
  unfold Timedelta.make, Timedelta.of_us.
  destruct (Timedelta.in_range _); [discriminate | now intros [= <-]].
Qed.

Lemma py_int_cases s :
  ((Str.max_str_digits < String.length s)%nat /\ Str.py_int s = Raise ValueError)
  \/ ((String.length s <= Str.max_str_digits)%nat /\ Str.py_int s = Ok (Str.int s)).
Proof.
  unfold Str.py_int.
  destruct (Str.max_str_digits <? String.length s)%nat eqn:H.
  - left. apply Nat.ltb_lt in H. now split.
  - right. apply Nat.ltb_ge in H. now split.
Qed.

(** X4. The parser raises only on a message that one of its patterns
    recognises, and a match always has the groups the code takes from it:
    two for the first pattern, one for the third. So the exception is never
    that of the unpacking or of [group(1)]: it is [ValueError] exactly when a
    captured run of digits is longer than [int] converts, and
    [OverflowError] when the runs convert and the duration does not fit a
    timedelta. *)
Theorem parse_wait_time_raises message e :
  parse_wait_time message = Raise e ->
  recognised message
  /\ ((exists m s,
         Re.search wait_left_re message = Some [m; s]
         /\ ((e = ValueError
              /\ ((Str.max_str_digits < String.length m)%nat
                  \/ (Str.max_str_digits < String.length s)%nat))
             \/ (e = OverflowError
                 /\ (String.length m <= Str.max_str_digits)%nat
                 /\ (String.length s <= Str.max_str_digits)%nat
                 /\ Timedelta.in_range
                      ((60 * Str.int m + Str.int s) * Timedelta.us_per_second)
                    = false)))
      \/ (Re.search wait_left_re message = None
          /\ Str.contains "one minute" message = false
          /\ exists n,
              Re.search minutes_wait_re message = Some [n]
              /\ ((e = ValueError
                   /\ (Str.max_str_digits < String.length n)%nat)
                  \/ (e = OverflowError
                      /\ (String.length n <= Str.max_str_digits)%nat
                      /\ Timedelta.in_range
                           ((60 * Str.int n + 0) * Timedelta.us_per_second)
                         = false)))).
Proof.
  unfold parse_wait_time, recognised.
  destruct (Re.search wait_left_re message) as [g|] eqn:H1.
  - pose proof (search_some _ _ _ H1) as (Hocc & Hlen & _).
    change (group_count wait_left_re) with 2%nat in Hlen.
    destruct g as [|m [|s [|]]]; try discriminate Hlen.
    intros H. split; [now left|]. left. exists m, s. split; [reflexivity|].
    destruct (py_int_cases m) as [[Lm Em] | [Lm Em]]; rewrite Em in H;
      cbn [bind] in H.
    { injection H as <-. left. split; [reflexivity | now left]. }
    destruct (py_int_cases s) as [[Ls Es] | [Ls Es]]; rewrite Es in H;
      cbn [bind] in H.
    { injection H as <-. left. split; [reflexivity | now right]. }
    apply make_overflow in H as [-> Hr]. right. now repeat split.
  - destruct (Str.contains "one minute" message) eqn:Hc.
    + intros H. vm_compute in H. discriminate.
    + destruct (Re.search minutes_wait_re message) as [g|] eqn:H3; [|discriminate].
      pose proof (search_some _ _ _ H3) as (Hocc & Hlen & _).
      change (group_count minutes_wait_re) with 1%nat in Hlen.
      destruct g as [|n [|]]; try discriminate Hlen.
      intros H. split; [now right; right|]. right.
      split; [reflexivity | split; [reflexivity|]]. exists n.
      split; [reflexivity|].
      destruct (py_int_cases n) as [[Ln En] | [Ln En]]; rewrite En in H;
        cbn [bind] in H.
      { injection H as <-. left. now split. }
      apply make_overflow in H as [-> Hr]. right. now repeat split.
Qed.

Lemma parse_wait_time_raises_witness :
  recognised "please wait 99999999999999999999 minutes before trying again".
Proof.
  exact (proj1 (parse_wait_time_raises
                  "please wait 99999999999999999999 minutes before trying again"
                  OverflowError eq_refl)).
Defined.

(** ** The countdown presenter: how long it blocks *)


(** X5. The countdown presenter returns after sleeping whole seconds that
    cover the remaining time and exceed it by less than a second; with
    nothing left to wait it only announces that the answer may be
    submitted. *)
Theorem display_countdown_timer_blocks remaining :
  Prog.outcome (display_countdown_timer remaining) = Ok tt
  /\ (remaining <= 0 ->
      Prog.trace (display_countdown_timer remaining)
      = [Print (nl ++ "You may now submit your answer." ++ nl)])
  /\ (0 < remaining ->
      remaining
      <= Timedelta.us_per_second
         * slept (Prog.trace (display_countdown_timer remaining))
      < remaining + Timedelta.us_per_second).
Proof.
  unfold display_countdown_timer, print, Prog.bind, Prog.emit, Prog.trace,
    Prog.outcome.
  cbn [fst snd]. split; [reflexivity | split].
  - intros H. rewrite countdown_loop_idle by exact H.
    cbn [app]. now rewrite !append_assoc.
  - intros H. rewrite slept_app, countdown_loop_slept. cbn [slept].
    unfold Timedelta.us_per_second.
    pose proof (Z.div_mod (remaining + 999999) 1000000 ltac:(lia)) as Hd.
    pose proof (Z.mod_pos_bound (remaining + 999999) 1000000 ltac:(lia)) as Hm.
    assert (0 <= (remaining + 999999) / 1000000) by (apply Z.div_pos; lia).
    lia.
Qed.

Lemma display_countdown_timer_blocks_witness :
  1500000
  <= Timedelta.us_per_second
     * slept (Prog.trace (display_countdown_timer 1500000))
  < 1500000 + Timedelta.us_per_second.
Proof.
  apply (display_countdown_timer_blocks 1500000). reflexivity.
Defined.

(** ** The dispatcher: what a run can contain *)

Section DispatcherRuns.

Variable parse : string -> result datetime.
Variable w : world.
Variables (year day : Z) (part answer : string).

Lemma count_cons f e tr :
  count f (e :: tr) = ((if f e then 1 else 0) + count f tr)%nat.
Proof.
  unfold count. cbn [filter]. now destruct (f e).
Qed.

Lemma scan_paragraphs_reports paragraphs : forall calls,
  List.forallb is_report
    (Prog.trace (scan_paragraphs w year day calls paragraphs)) = true.
Proof.
  induction paragraphs as [|text rest IH]; intros calls; [reflexivity|].
  cbn [scan_paragraphs].
  destruct (Str.contains "You have completed Day" text); [reflexivity|].
  destruct (Str.contains "[Continue to Part Two]" text); [|apply IH].
  unfold Prog.bind, Prog.lift, Prog.emit.
  destruct (day_directory w) as [dir|]; [|reflexivity].
  destruct (refresh_outcome w calls); [|reflexivity].
  specialize (IH (S calls)).
  destruct (scan_paragraphs w year day (S calls) rest) as [tr r].
  exact IH.
Qed.

Lemma reports_count tr :
  List.forallb is_report tr = true ->
  count is_submit tr = 0%nat /\ slept tr = 0.
Proof.
  induction tr as [|e tr IH]; [now split|].
  cbn [forallb]. intros H. apply andb_true_iff in H as [He Htr].
  destruct (IH Htr) as [IH1 IH2]. unfold count in *.
  destruct e; try discriminate; cbn [filter is_submit slept]; now split.
Qed.

(** What follows the submission. *)
Lemma submit_and_classify_shape :
  exists tr r,
    submit_and_classify w year day part answer
    = (Submit answer part year day :: tr, r)
    /\ List.forallb is_report tr = true.
Proof.
  unfold submit_and_classify, Prog.bind, Prog.emit, Prog.lift.
  destruct (submit_response w) as [[paragraphs|]|].
  - pose proof (scan_paragraphs_reports paragraphs 0) as H.
    destruct (scan_paragraphs w year day 0 paragraphs) as [tr r].
    now exists tr, r.
  - unfold print, Prog.emit. now eexists _, _.
  - now exists [], (Raise e).
Qed.

Lemma run_submitting remaining :
  answered w = Ok false ->
  calculate_remaining_wait_time parse (feedback_cache w) (now w) = Ok remaining ->
  remaining <= 0 ->
  exists tr,
    submit_answer_attempt parse w year day part answer
    = (QueryAnswered year day part :: Submit answer part year day :: tr, Ok tt)
    /\ List.forallb is_report tr = true.
Proof.
  intros Ha Hc Hr.
  unfold submit_answer_attempt, Prog.bind, Prog.emit, Prog.lift.
  rewrite Ha, Hc. apply Z.ltb_ge in Hr. rewrite Hr.
  destruct submit_and_classify_shape as (tr & r & -> & Htr).
  unfold Prog.try_except. destruct r as [[]|e].
  - now exists tr.
  - unfold print, Prog.emit.
    eexists. split; [reflexivity|].
    rewrite forallb_app, Htr. reflexivity.
Qed.

End DispatcherRuns.

(** The submissions of a run: at most one, and for the arguments of the
    call. *)
Lemma attempt_submissions parse w year day part answer :
  List.filter is_submit
    (Prog.trace (submit_answer_attempt parse w year day part answer)) = []
  \/ List.filter is_submit
       (Prog.trace (submit_answer_attempt parse w year day part answer))
     = [Submit answer part year day].
Proof.
  destruct (answered w) as [[|]|e] eqn:Ha.
  - rewrite (run_already_answered parse w year day part answer Ha). now left.
  - destruct (calculate_remaining_wait_time parse (feedback_cache w) (now w))
      as [remaining|e] eqn:Hc.
    + destruct (Z_lt_dec 0 remaining) as [Hpos|Hle].
      * rewrite (run_waiting parse w year day part answer remaining Ha Hc Hpos).
        left. cbn [Prog.trace fst filter is_submit]. rewrite filter_app.
        pose proof (countdown_loop_submits remaining) as H. unfold count in H.
        apply length_zero_iff_nil in H. now rewrite H.
      * destruct (run_submitting parse w year day part answer remaining Ha Hc)
          as (tr & -> & Htr); [lia|].
        apply reports_count in Htr as [Htr _]. unfold count in Htr.
        apply length_zero_iff_nil in Htr.
        right. cbn [Prog.trace fst filter is_submit]. now rewrite Htr.
    + unfold submit_answer_attempt, Prog.bind, Prog.emit, Prog.lift.
      rewrite Ha, Hc. now left.
  - unfold submit_answer_attempt, Prog.bind, Prog.emit, Prog.lift.
    rewrite Ha. now left.
Qed.

(** X6. No run of the dispatcher, whatever the collaborators answer, holds
    more than one submission. *)
Theorem submit_answer_attempt_submits_once parse w year day part answer :
  (count is_submit
     (Prog.trace (submit_answer_attempt parse w year day part answer)) <= 1)%nat.
Proof.
  unfold count.
  destruct (attempt_submissions parse w year day part answer) as [-> | ->];
    cbn; lia.
Qed.

(** X7. When the part is not answered and no cooldown is left, the
    dispatcher submits at once, exactly once and without sleeping, and the
    attempt ends normally whatever happens after the submission: nothing
    raised inside the [try] block leaves the dispatcher. *)
Theorem submit_answer_attempt_submits parse w year day part answer remaining :
  answered w = Ok false ->
  calculate_remaining_wait_time parse (feedback_cache w) (now w) = Ok remaining ->
  remaining <= 0 ->
  Prog.outcome (submit_answer_attempt parse w year day part answer) = Ok tt
  /\ (exists tr,
         Prog.trace (submit_answer_attempt parse w year day part answer)
         = QueryAnswered year day part :: Submit answer part year day :: tr)
  /\ count is_submit
       (Prog.trace (submit_answer_attempt parse w year day part answer)) = 1%nat
  /\ slept (Prog.trace (submit_answer_attempt parse w year day part answer)) = 0.
Proof.
  intros Ha Hc Hr.
  destruct (run_submitting parse w year day part answer remaining Ha Hc Hr)
    as (tr & -> & Htr).
  apply reports_count in Htr as [H1 H2].
  cbn [Prog.outcome Prog.trace fst snd].
  split; [reflexivity | split; [now exists tr | split]].
  - unfold count in *. cbn [filter is_submit List.length]. now rewrite H1.
  - cbn [slept]. exact H2.
Qed.

Lemma submit_answer_attempt_submits_witness :
  count is_submit
    (Prog.trace
       (submit_answer_attempt Iso8601.parse
          (world_with (Some superseded_history) (Raise (AocdError "HTTP 500")))
          2024 1 "a" "42")) = 1%nat.
Proof.
  apply (submit_answer_attempt_submits Iso8601.parse
           (world_with (Some superseded_history) (Raise (AocdError "HTTP 500")))
           2024 1 "a" "42" 0); [reflexivity | reflexivity | lia].
Defined.

(** X8. The dispatcher raises exactly when the status query raises or, the
    part not being answered, the cooldown calculation raises; the exception
    is theirs. *)
Theorem submit_answer_attempt_raises parse w year day part answer e :
  Prog.outcome (submit_answer_attempt parse w year day part answer) = Raise e
  <-> answered w = Raise e
      \/ (answered w = Ok false
          /\ calculate_remaining_wait_time parse (feedback_cache w) (now w)
             = Raise e).
Proof.
  destruct (answered w) as [[|]|e0] eqn:Ha.
  - rewrite (run_already_answered parse w year day part answer Ha).
    cbn [Prog.outcome snd]. split; [discriminate | intros [H | [H _]]; discriminate].
  - destruct (calculate_remaining_wait_time parse (feedback_cache w) (now w))
      as [remaining|e1] eqn:Hc.
    + assert (Prog.outcome (submit_answer_attempt parse w year day part answer)
              = Ok tt) as ->.
      { destruct (Z_lt_dec 0 remaining) as [Hpos|Hle].
        - now rewrite (run_waiting parse w year day part answer remaining Ha Hc Hpos).
        - destruct (run_submitting parse w year day part answer remaining Ha Hc)
            as (tr & -> & _); [lia | reflexivity]. }
      split; [discriminate | intros [H | [_ H]]; discriminate].
    + unfold submit_answer_attempt, Prog.bind, Prog.emit, Prog.lift.
      rewrite Ha, Hc. cbn [Prog.outcome snd].
      split; [intros [= ->]; now right | intros [H | [_ H]]; congruence].
  - unfold submit_answer_attempt, Prog.bind, Prog.emit, Prog.lift.
    rewrite Ha. cbn [Prog.outcome snd].
    split; [intros [= ->]; now left | intros [H | [H _]]; congruence].
Qed.

Lemma submit_answer_attempt_raises_witness :
  Prog.outcome
    (submit_answer_attempt Iso8601.parse
       (world_with (Some corrupt_history) (Ok None)) 2024 1 "a" "42")
  = Raise JSONDecodeError.
Proof.
  apply (submit_answer_attempt_raises Iso8601.parse
           (world_with (Some corrupt_history) (Ok None)) 2024 1 "a" "42").
  right. split; reflexivity.
Defined.

(** X9. A submission that fails is reported and not repeated: when the
    transport raises, the run is the query, the one submission and the text
    of the exception; when the response has no article, it is the query, the
    submission and [Failed to submit answer.]; neither refreshes
    anything. *)
Theorem submit_answer_attempt_failed parse w year day part answer remaining :
  answered w = Ok false ->
  calculate_remaining_wait_time parse (feedback_cache w) (now w) = Ok remaining ->
  remaining <= 0 ->
  (forall e,
      submit_response w = Raise e ->
      submit_answer_attempt parse w year day part answer
      = ([QueryAnswered year day part; Submit answer part year day;
          Print (nl ++ str_of_exn e ++ nl)], Ok tt))
  /\ (submit_response w = Ok None ->
      submit_answer_attempt parse w year day part answer
      = ([QueryAnswered year day part; Submit answer part year day;
          Print (nl ++ "Failed to submit answer." ++ nl)], Ok tt)).
Proof.
  intros Ha Hc Hr. apply Z.ltb_ge in Hr.
  split; [intros e He | intros He];
    unfold submit_answer_attempt, submit_and_classify, Prog.try_except,
      Prog.bind, Prog.emit, Prog.lift, print;
    rewrite Ha, Hc, Hr, He; unfold Prog.emit; cbn [app];
    now rewrite !append_assoc.
Qed.

Lemma submit_answer_attempt_failed_witness :
  submit_answer_attempt Iso8601.parse
    (world_with None (Raise (AocdError "HTTP 500"))) 2024 1 "a" "42"
  = ([QueryAnswered 2024 1 "a"; Submit "42" "a" 2024 1;
      Print (nl ++ "HTTP 500" ++ nl)], Ok tt).
Proof.
  apply (proj1 (submit_answer_attempt_failed Iso8601.parse
                  (world_with None (Raise (AocdError "HTTP 500")))
                  2024 1 "a" "42" 0 eq_refl eq_refl ltac:(lia))
           (AocdError "HTTP 500")).
  reflexivity.
Defined.

(** ** The response classifier: where the scan stops *)

Section ClassifierFacts.

Variable w : world.
Variables (year day : Z).

Lemma before_unfold (sep hay : string) :
  Str.before sep hay =
  if String.prefix sep hay then ""
  else match hay with
       | EmptyString => ""
       | String c rest => String c (Str.before sep rest)
       end.
Proof. now destruct hay. Qed.

(** [hay.split(sep)[0]] is what precedes the first occurrence of [sep]. *)
Lemma before_first sep hay :
  Str.contains sep hay = true ->
  (exists rest, hay = Str.before sep hay ++ sep ++ rest)
  /\ forall m rest, hay = m ++ sep ++ rest ->
                    (String.length (Str.before sep hay) <= String.length m)%nat.
Proof.
  induction hay as [|c hay IH]; rewrite contains_unfold, before_unfold;
    destruct (String.prefix sep _) eqn:Hp.
  - intros _. apply prefix_iff in Hp as [rest Hp].
    split; [now exists rest | intros; simpl; lia].
  - discriminate.
  - intros _. apply prefix_iff in Hp as [rest Hp].
    split; [now exists rest | intros; simpl; lia].
  - intros H. destruct (IH H) as [[rest Hrest] Hmin]. split.
    + exists rest. cbn [String.append]. now rewrite <- Hrest.
    + intros [|c' m] rest' Heq.
      * assert (String.prefix sep (String c hay) = true)
          by (apply prefix_iff; now exists rest').
        congruence.
      * cbn [String.append] in Heq. injection Heq as _ Heq.
        specialize (Hmin m rest' Heq). cbn [String.length]. lia.
Qed.

Lemma scan_paragraphs_skips before : forall calls rest,
  unmarked before = true ->
  scan_paragraphs w year day calls (before ++ rest)
  = scan_paragraphs w year day calls rest.
Proof.
  induction before as [|text before IH]; intros calls rest H; [reflexivity|].
  cbn [unmarked forallb] in H. apply andb_true_iff in H as [H Hrest].
  apply andb_true_iff in H as [H1 H2]. apply negb_true_iff in H1, H2.
  cbn [app scan_paragraphs]. rewrite H1, H2. now apply IH.
Qed.

Lemma scan_paragraphs_cut text after : forall before calls,
  Str.contains "You have completed Day" text = true ->
  scan_paragraphs w year day calls (before ++ text :: after)
  = scan_paragraphs w year day calls (before ++ [text]).
Proof.
  intros before. induction before as [|p before IH]; intros calls H.
  - cbn [app scan_paragraphs]. now rewrite H.
  - cbn [app scan_paragraphs].
    destruct (Str.contains "You have completed Day" p); [reflexivity|].
    destruct (Str.contains "[Continue to Part Two]" p); [|now apply IH].
    unfold Prog.bind, Prog.lift, Prog.emit.
    destruct (day_directory w); [|reflexivity].
    destruct (refresh_outcome w calls); [|reflexivity].
    now rewrite IH.
Qed.

End ClassifierFacts.

(** X10. The scan of the paragraphs ends at the first one that contains
    [You have completed Day]: what comes after it has no effect. When no
    earlier paragraph carries a marker, all the classifier does is print the
    text of that paragraph up to the first occurrence of the phrase. *)
Theorem scan_paragraphs_completed w year day calls before text after :
  Str.contains "You have completed Day" text = true ->
  scan_paragraphs w year day calls (before ++ text :: after)
  = scan_paragraphs w year day calls (before ++ [text])
  /\ (unmarked before = true ->
      exists m rest,
        text = m ++ "You have completed Day" ++ rest
        /\ (forall m' rest',
               text = m' ++ "You have completed Day" ++ rest' ->
               (String.length m <= String.length m')%nat)
        /\ scan_paragraphs w year day calls (before ++ text :: after)
           = ([Print (nl ++ m ++ nl)], Ok tt)).
Proof.
  intros H. split; [now apply scan_paragraphs_cut|].
  intros Hu. destruct (before_first _ _ H) as [[rest Hrest] Hmin].
  exists (Str.before "You have completed Day" text), rest.
  split; [exact Hrest | split; [exact Hmin|]].
  rewrite scan_paragraphs_skips by exact Hu.
  cbn [scan_paragraphs]. rewrite H. unfold print, Prog.emit.
  now rewrite append_assoc.
Qed.

Lemma scan_paragraphs_completed_witness :
  scan_paragraphs (world_with None (Ok None)) 2024 1 0
    (["That's the right answer!"]
       ++ "Both parts done. You have completed Day 1! You have completed Day 1!"
       :: ["[Continue to Part Two]"])
  = scan_paragraphs (world_with None (Ok None)) 2024 1 0
      (["That's the right answer!"]
         ++ ["Both parts done. You have completed Day 1! You have completed Day 1!"]).
Proof.
  apply (scan_paragraphs_completed (world_with None (Ok None)) 2024 1 0
           ["That's the right answer!"]
           "Both parts done. You have completed Day 1! You have completed Day 1!"
           ["[Continue to Part Two]"]).
  reflexivity.
Defined.

(** X11. After a submission whose response has an article, and as long as
    the refresh does not raise, the example data is refreshed once for every
    paragraph with [[Continue to Part Two]] that precedes the first paragraph
    with [You have completed Day]. *)
Theorem submit_answer_attempt_refreshes
    parse w year day part answer remaining paragraphs dir :
  answered w = Ok false ->
  calculate_remaining_wait_time parse (feedback_cache w) (now w) = Ok remaining ->
  remaining <= 0 ->
  submit_response w = Ok (Some paragraphs) ->
  day_directory w = Ok dir ->
  (forall k, is_ok (refresh_outcome w k) = true) ->
  count is_refresh
    (Prog.trace (submit_answer_attempt parse w year day part answer))
  = marked paragraphs.
Proof.
  intros Ha Hc Hr Hresp Hdir Hok. apply Z.ltb_ge in Hr.
  pose proof (scan_paragraphs_refreshes w year day dir paragraphs 0 Hdir Hok) as H.
  unfold submit_answer_attempt, submit_and_classify, Prog.try_except,
    Prog.bind, Prog.emit, Prog.lift.
  rewrite Ha, Hc, Hr, Hresp.
  destruct (scan_paragraphs w year day 0 paragraphs) as [tr [[]|e]];
    cbn [Prog.trace fst app] in *.
  - unfold count in *. cbn [filter is_refresh]. exact H.
  - unfold print, Prog.emit. cbn [Prog.trace fst app].
    rewrite !count_cons, count_app, H. cbn. lia.
Qed.

Lemma submit_answer_attempt_refreshes_witness :
  count is_refresh
    (Prog.trace
       (submit_answer_attempt Iso8601.parse
          (world_with None (Ok (Some busy_response))) 2024 1 "a" "42"))
  = 2%nat.
Proof.
  apply (submit_answer_attempt_refreshes Iso8601.parse
           (world_with None (Ok (Some busy_response)))
           2024 1 "a" "42" 0 busy_response "aoc/2024/day_01");
    reflexivity.
Defined.

(** X12. When the refresh raises at the first paragraph with
    [[Continue to Part Two]], the scan ends there: the exception is caught
    and printed, the attempt ends normally, and the paragraphs that follow
    are not looked at. *)
Theorem submit_answer_attempt_refresh_raises
    parse w year day part answer remaining before text after dir e :
  answered w = Ok false ->
  calculate_remaining_wait_time parse (feedback_cache w) (now w) = Ok remaining ->
  remaining <= 0 ->
  submit_response w = Ok (Some (before ++ text :: after)%list) ->
  unmarked before = true ->
  Str.contains "You have completed Day" text = false ->
  Str.contains "[Continue to Part Two]" text = true ->
  day_directory w = Ok dir ->
  refresh_outcome w 0 = Raise e ->
  submit_answer_attempt parse w year day part answer
  = ([QueryAnswered year day part; Submit answer part year day;
      Refresh day year dir; Print (nl ++ str_of_exn e ++ nl)], Ok tt).
Proof.
  intros Ha Hc Hr Hresp Hu H1 H2 Hdir He. apply Z.ltb_ge in Hr.
  unfold submit_answer_attempt, submit_and_classify, Prog.try_except,
    Prog.bind, Prog.emit, Prog.lift.
  rewrite Ha, Hc, Hr, Hresp, scan_paragraphs_skips by exact Hu.
  cbn [scan_paragraphs]. rewrite H1, H2.
  unfold Prog.bind, Prog.emit, Prog.lift, print. rewrite Hdir, He.
  unfold Prog.emit. cbn [app]. now rewrite append_assoc.
Qed.

Lemma submit_answer_attempt_refresh_raises_witness :
  submit_answer_attempt Iso8601.parse failing_refresh_world 2024 1 "a" "42"
  = ([QueryAnswered 2024 1 "a"; Submit "42" "a" 2024 1;
      Refresh 1 2024 "aoc/2024/day_01"; Print (nl ++ "TypeError" ++ nl)], Ok tt).
Proof.
  apply (submit_answer_attempt_refresh_raises Iso8601.parse failing_refresh_world
           2024 1 "a" "42" 0 ["That's the right answer!"]
           "[Continue to Part Two]" ["You have completed Day 1!"]
           "aoc/2024/day_01" TypeError);
    reflexivity.
Defined.

(** ** The feedback store reader: what a file contributes *)

Section ReaderFiles.

Variable parse : string -> result datetime.

Lemma scan_file_last st items e :
  scan_file parse st (Ok (JArr (items ++ [e])))
  = scan_file parse st (Ok (JArr [e])).
Proof.
  unfold scan_file. cbn [bind].
  assert (Ht : Py.truthy (JArr (items ++ [e])) = true) by now destruct items.
  rewrite Ht. cbn [Py.truthy]. unfold Py.last_item.
  pose proof (last_entry_snoc items e) as H1.
  pose proof (last_entry_snoc [] e) as H2.
  unfold last_entry in H1, H2. cbn [app] in H2. now rewrite H1, H2.
Qed.

Lemma scan_file_falsy st data :
  Py.truthy data = false -> scan_file parse st (Ok data) = Ok st.
Proof.
  intros H. unfold scan_file. cbn [bind]. now rewrite H.
Qed.

Lemma read_replace before file file' after :
  (forall st, scan_file parse st file = scan_file parse st file') ->
  read_last_submission_feedback parse (Some (before ++ file :: after)%list)
  = read_last_submission_feedback parse (Some (before ++ file' :: after)%list).
Proof.
  intros H. unfold read_last_submission_feedback.
  rewrite !scan_files_app.
  destruct (scan_files parse (None, None) before) as [st|]; [|reflexivity].
  cbn [bind scan_files]. now rewrite H.
Qed.

(** The reads the loop makes on an entry with a time and a message. *)
Lemma scan_file_waiting st items e t :
  entry_time parse e = Some t ->
  wait_indicating e = true ->
  scan_file parse st (Ok (JArr (items ++ [e])))
  = newer <- match snd st with
             | None => Ok true
             | Some latest => Datetime.gt (Aware t) latest
             end ;;
    if newer then Ok (Some e, Some (Aware t)) else Ok st.
Proof.
  intros Ht Hw. rewrite scan_file_last.
  assert (Hwf : well_formed_entry parse e = true).
  { unfold well_formed_entry. rewrite Ht.
    unfold wait_indicating in Hw. now destruct (entry_message e). }
  destruct (well_formed_entry_reads parse e Hwf)
    as (t' & m & message & Ht' & Hm & Hwhen & Hget & Hc).
  rewrite Ht in Ht'. injection Ht' as <-.
  unfold wait_indicating in Hw. rewrite Hm in Hw. rewrite Hw in Hc.
  unfold scan_file. cbn [bind Py.truthy Py.last_item map last].
  unfold bind in Hwhen.
  destruct (Py.getitem "when" e) as [when|]; [|discriminate]. cbn [bind].
  rewrite Hwhen, Hget. cbn [bind]. rewrite Hc. reflexivity.
Qed.

End ReaderFiles.

(** X13. Of a file the reader uses the last entry only: dropping the
    entries before it changes nothing, whatever the other files hold and
    whether or not the read succeeds. *)
Theorem read_last_entry_only parse before items e after :
  read_last_submission_feedback parse
    (Some (before ++ Ok (JArr (items ++ [e])) :: after)%list)
  = read_last_submission_feedback parse
      (Some (before ++ Ok (JArr [e]) :: after)%list).
Proof.
  apply read_replace. intros st. apply scan_file_last.
Qed.

(** X14. A file whose content is empty (an empty array, an empty object,
    [null], zero, an empty string or [false]) is passed over: the reader
    answers as if the file were not there. *)
Theorem read_skips_empty_file parse before data after :
  Py.truthy data = false ->
  read_last_submission_feedback parse (Some (before ++ Ok data :: after)%list)
  = read_last_submission_feedback parse (Some (before ++ after)%list).
Proof.
  intros H. unfold read_last_submission_feedback.
  rewrite !scan_files_app.
  destruct (scan_files parse (None, None) before) as [st|]; [|reflexivity].
  cbn [bind scan_files]. now rewrite scan_file_falsy.
Qed.

Lemma read_skips_empty_file_witness :
  read_last_submission_feedback Iso8601.parse
    (Some ([Ok (JArr [scenario_entry])] ++ Ok (JObj []) :: [Ok JNull])%list)
  = read_last_submission_feedback Iso8601.parse
      (Some ([Ok (JArr [scenario_entry])] ++ [Ok JNull])%list).
Proof.
  apply (read_skips_empty_file Iso8601.parse
           [Ok (JArr [scenario_entry])] (JObj []) [Ok JNull]).
  reflexivity.
Defined.

(** X15. Of two files that both end in a wait, the reader returns the entry
    of the second only when it is strictly later: on equal timestamps the
    file scanned first wins. *)
Theorem read_two_waits parse items1 e1 t1 items2 e2 t2 :
  entry_time parse e1 = Some t1 -> wait_indicating e1 = true ->
  entry_time parse e2 = Some t2 -> wait_indicating e2 = true ->
  read_last_submission_feedback parse
    (Some [Ok (JArr (items1 ++ [e1])); Ok (JArr (items2 ++ [e2]))])
  = Ok (Some (if t1 <? t2 then e2 else e1)).
Proof.
  intros Ht1 Hw1 Ht2 Hw2.
  unfold read_last_submission_feedback. cbn [scan_files].
  rewrite (scan_file_waiting parse (None, None) items1 e1 t1 Ht1 Hw1).
  cbn [snd bind].
  rewrite (scan_file_waiting parse _ items2 e2 t2 Ht2 Hw2).
  cbn [snd bind Datetime.gt]. now destruct (t1 <? t2).
Qed.

Lemma read_two_waits_witness :
  read_last_submission_feedback Iso8601.parse
    (Some [Ok (JArr ([] ++ [scenario_entry]));
           Ok (JArr ([accepted_entry]
                       ++ [feedback_entry "b" "2024-12-01T16:00:00+01:00"
                             "Please wait one minute."]))])
  = Ok (Some scenario_entry).
Proof.
  apply (read_two_waits Iso8601.parse [] scenario_entry 1733065200000000
           [accepted_entry]
           (feedback_entry "b" "2024-12-01T16:00:00+01:00" "Please wait one minute.")
           1733065200000000); reflexivity.
Defined.

(** X16. The timestamp of the last entry is read before its message is
    looked at: a file whose last entry is an object without [when] makes the
    read raise [KeyError], even when that entry is not a wait. *)
Theorem read_missing_when parse before items fields after :
  List.forallb (well_formed_file parse) before = true ->
  Py.lookup "when" fields = None ->
  read_last_submission_feedback parse
    (Some (before ++ Ok (JArr (items ++ [JObj fields])) :: after)%list)
  = Raise KeyError.
Proof.
  intros Hwf Hw.
  rewrite (read_replace parse before _ (Ok (JArr [JObj fields])) after)
    by (intros st; apply scan_file_last).
  unfold read_last_submission_feedback. rewrite scan_files_app.
  destruct (scan_files_well_formed parse before (None, None) [] Hwf)
    as (st & -> & _); [now left|].
  cbn [bind scan_files]. unfold scan_file.
  cbn [bind Py.truthy Py.last_item map last Py.getitem]. now rewrite Hw.
Qed.

Lemma read_missing_when_witness :
  read_last_submission_feedback Iso8601.parse
    (Some ([Ok (JArr [scenario_entry])]
             ++ Ok (JArr ([accepted_entry]
                            ++ [JObj [("message", JStr "That's the right answer!")]]))
             :: [])%list)
  = Raise KeyError.
Proof.
  apply (read_missing_when Iso8601.parse [Ok (JArr [scenario_entry])]
           [accepted_entry] [("message", JStr "That's the right answer!")] []);
    reflexivity.
Defined.

(** X17. A wait whose timestamp carries no UTC offset is accepted by the
    reader and then breaks the calculator: subtracting the naive timestamp
    from the aware clock raises [TypeError]. *)
Theorem calculate_naive_timestamp parse items fields ts t msg W now :
  Py.lookup "when" fields = Some (JStr ts) -> parse ts = Ok (Naive t) ->
  Py.lookup "message" fields = Some (JStr msg) ->
  Str.contains "wait" msg = true ->
  parse_wait_time msg = Ok W ->
  read_last_submission_feedback parse (Some [Ok (JArr (items ++ [JObj fields]))])
  = Ok (Some (JObj fields))
  /\ calculate_remaining_wait_time parse
       (Some [Ok (JArr (items ++ [JObj fields]))]) now
     = Raise TypeError.
Proof.
  intros Hw Ht Hm Hc HW.
  assert (Hread :
    read_last_submission_feedback parse (Some [Ok (JArr (items ++ [JObj fields]))])
    = Ok (Some (JObj fields))).
  { unfold read_last_submission_feedback. cbn [scan_files].
    rewrite scan_file_last. unfold scan_file.
    cbn [bind Py.truthy Py.last_item map last Py.getitem Py.get parse_when].
    rewrite Hw. cbn [bind parse_when]. rewrite Ht, Hm.
    cbn [bind Py.contains]. rewrite Hc. reflexivity. }
  split; [exact Hread|].
  unfold calculate_remaining_wait_time. rewrite Hread.
  cbn [bind remaining_wait_time_of Py.get Py.getitem].
  assert (Htr : Py.truthy (JObj fields) = true)
    by (destruct fields; [discriminate | reflexivity]).
  rewrite Htr, Hm. cbn [bind Py.contains]. rewrite Hc.
  cbn [bind parse_wait_time_of]. rewrite HW, Hw.
  cbn [bind parse_when]. now rewrite Ht.
Qed.

Lemma calculate_naive_timestamp_witness :
  calculate_remaining_wait_time Iso8601.parse
    (Some [Ok (JArr ([] ++ [JObj [("when", JStr "2024-12-01T10:00:00");
                                  ("message", JStr "You have 1m 0s left to wait.")]]))])
    1733065230000000
  = Raise TypeError.
Proof.
  apply (calculate_naive_timestamp Iso8601.parse []
           [("when", JStr "2024-12-01T10:00:00");
            ("message", JStr "You have 1m 0s left to wait.")]
           "2024-12-01T10:00:00" 1733047200000000
           "You have 1m 0s left to wait." 60000000 1733065230000000);
    reflexivity.
Defined.

(** X18. For the entry the reader selected, the remaining wait never grows
    as the clock advances, and once the clock has reached the timestamp of
    the entry it does not exceed the parsed wait. *)
Theorem calculate_remaining_decreases parse c fb ts msg T W now1 now2 :
  read_last_submission_feedback parse c = Ok (Some fb) ->
  Py.getitem "when" fb = Ok (JStr ts) -> parse ts = Ok (Aware T) ->
  Py.getitem "message" fb = Ok (JStr msg) -> parse_wait_time msg = Ok W ->
  Timedelta.in_range (W - (now1 - T)) = true ->
  Timedelta.in_range (W - (now2 - T)) = true ->
  now1 <= now2 ->
  exists r1 r2,
    calculate_remaining_wait_time parse c now1 = Ok r1
    /\ calculate_remaining_wait_time parse c now2 = Ok r2
    /\ 0 <= r2 <= r1
    /\ (T <= now1 -> r1 <= W).
Proof.
  intros Hread Hwhen HT Hmsg HW Hr1 Hr2 Hle.
  pose proof (read_kept _ _ _ Hread) as Hkept.
  pose proof (parse_wait_time_ok _ _ HW) as [HW0 _].
  exists (Z.max 0 (W - (now1 - T))), (Z.max 0 (W - (now2 - T))).
  unfold calculate_remaining_wait_time. rewrite Hread. cbn [bind].
  rewrite (remaining_of_kept parse fb ts msg T W now1) by assumption.
  rewrite (remaining_of_kept parse fb ts msg T W now2) by assumption.
  repeat split; lia.
Qed.

Lemma calculate_remaining_decreases_witness :
  exists r1 r2,
    calculate_remaining_wait_time Iso8601.parse
      (Some [Ok (JArr [scenario_entry])]) 1733065210000000 = Ok r1
    /\ calculate_remaining_wait_time Iso8601.parse
         (Some [Ok (JArr [scenario_entry])]) 1733065230000000 = Ok r2
    /\ 0 <= r2 <= r1
    /\ (1733065200000000 <= 1733065210000000 -> r1 <= 60000000).
Proof.
  apply (calculate_remaining_decreases Iso8601.parse
           (Some [Ok (JArr [scenario_entry])]) scenario_entry
           "2024-12-01T10:00:00-05:00" "You have 1m 0s left to wait."
           1733065200000000 60000000 1733065210000000 1733065230000000);
    try reflexivity.
  lia.
Defined.

(** ** Part a among the recorded answers *)

Section PartA.

Lemma part_a_accepted_in_plain items :
  List.forallb plain_entry items = true ->
  part_a_accepted_in items = Ok (List.existsb accepted_part_a items).
Proof.
  induction items as [|e items IH]; [reflexivity|].
  cbn [forallb existsb part_a_accepted_in]. intros H.
  apply andb_true_iff in H as [He Hitems]. specialize (IH Hitems).
  unfold plain_entry in He.
  destruct e as [| | | |xs|fields]; try discriminate He.
  unfold accepted_part_a. cbn [Py.get] in *.
  destruct (entry_message (JObj fields)) as [m|] eqn:Hm; [|discriminate He].
  cbn [entry_message] in Hm.
  destruct (Py.lookup "part" fields) as [part|]; cbn [bind Py.is_str].
  - destruct (Py.is_str "a" part); [|exact IH].
    destruct (Py.lookup "message" fields) as [[| | |m0| |]|];
      try discriminate Hm; injection Hm as <-; cbn [bind Py.contains andb];
      now destruct (Str.contains _ _).
  - exact IH.
Qed.

End PartA.

(** X19. Without a file for the day, part a counts as not completed. On a
    history of plain entries the check looks at every entry, not only the
    last: it answers true exactly when some entry is for part [a] and its
    message contains [That's the right answer]. *)
Theorem check_for_part_a_completion_scans_all :
  check_for_part_a_completion None = Ok false
  /\ forall items,
      List.forallb plain_entry items = true ->
      check_for_part_a_completion (Some (Ok (JArr items)))
      = Ok (List.existsb accepted_part_a items)
      /\ (check_for_part_a_completion (Some (Ok (JArr items))) = Ok true
          <-> exists e, In e items /\ accepted_part_a e = true).
Proof.
  split; [reflexivity|]. intros items H.
  unfold check_for_part_a_completion. cbn [bind py_iter].
  rewrite (part_a_accepted_in_plain items H). split; [reflexivity|].
  rewrite <- existsb_exists. split; [now intros [= ->] | now intros ->].
Qed.

Lemma check_for_part_a_completion_scans_all_witness :
  check_for_part_a_completion
    (Some (Ok (JArr [accepted_entry; scenario_entry]))) = Ok true.
Proof.
  apply (proj2 check_for_part_a_completion_scans_all
           [accepted_entry; scenario_entry]); [reflexivity|].
  exists accepted_entry. split; [now left | reflexivity].
Defined.

(** ** The refresh of the example data *)

(** The refresh of readable, writable files is the refresh with the errors
    of the file system when none of them occurs. *)
Lemma check_and_update_example_input_io_agrees
    day year day_dir example_file content aocd :
  check_and_update_example_input_io day year day_dir example_file
    (Some (Ok content)) aocd (Ok tt)
    (match aocd with Completed stdout => Ok stdout | _ => Ok content end)
  = (example_did
       (check_and_update_example_input day year day_dir example_file
          (Some content) aocd),
     example_returned
       (check_and_update_example_input day year day_dir example_file
          (Some content) aocd)).
Proof.
  unfold check_and_update_example_input_io, check_and_update_example_input.
  destruct (Str.contains "answer_b: -" content); [|reflexivity].
  now destruct aocd.
Qed.

(** X20. With the errors of the file system taken into account, the refresh
    raises in these cases and no other: [example.txt] does not exist, and
    then it is a [TypeError] raised before anything is run; reading the file
    raises; or the file holds the placeholder [answer_b: -] and running
    [aocd] raises something other than a failed exit status, or writing its
    output or reading it back raises. A failed exit status never leaves the
    function. *)
Theorem check_and_update_example_input_raises
    day year day_dir example_file example aocd write read_back e :
  snd (check_and_update_example_input_io day year day_dir example_file
         example aocd write read_back)
  = Raise e
  <-> (example = None /\ e = TypeError)
      \/ example = Some (Raise e)
      \/ (exists content,
             example = Some (Ok content)
             /\ Str.contains "answer_b: -" content = true
             /\ (aocd = RunRaises e
                 \/ exists stdout,
                     aocd = Completed stdout
                     /\ (write = Raise e
                         \/ ((exists u, write = Ok u) /\ read_back = Raise e)))).
Proof.
  unfold check_and_update_example_input_io.
  destruct example as [[content|e0]|].
  - destruct (Str.contains "answer_b: -" content) eqn:Hc.
    + destruct aocd as [stdout|stderr|e1].
      * destruct write as [u|e2].
        -- destruct read_back as [updated|e3]; cbn [snd].
           ++ split; [discriminate|].
              intros [[H _] | [H | (c & _ & _ & [H | (o & _ & [H | [_ H]])])]];
                discriminate.
           ++ split.
              ** intros [= ->]. right. right. exists content.
                 split; [reflexivity | split; [exact Hc|]]. right.
                 exists stdout. split; [reflexivity|]. right.
                 split; [now exists u | reflexivity].
              ** intros [[H _] | [H | (c & _ & _ & [H | (o & _ & [H | [_ H]])])]];
                   try discriminate. now injection H as ->.
        -- cbn [snd]. split.
           ++ intros [= ->]. right. right. exists content.
              split; [reflexivity | split; [exact Hc|]]. right.
              exists stdout. split; [reflexivity|]. now left.
           ++ intros [[H _] | [H | (c & _ & _ & [H | (o & _ & [H | [[u H] _]])])]];
                try discriminate. now injection H as ->.
      * cbn [snd]. split; [discriminate|].
        intros [[H _] | [H | (c & _ & _ & [H | (o & H & _)])]]; discriminate.
      * cbn [snd]. split.
        -- intros [= ->]. right. right. exists content.
           split; [reflexivity | split; [exact Hc|]]. now left.
        -- intros [[H _] | [H | (c & _ & _ & [H | (o & H & _)])]];
             try discriminate. now injection H as ->.
    + cbn [snd]. split; [discriminate|].
      intros [[H _] | [H | (c & H & Hc' & _)]]; try discriminate.
      injection H as <-. congruence.
  - cbn [snd]. split.
    + intros [= ->]. right. now left.
    + intros [[H _] | [H | (c & H & _)]]; try discriminate.
      now injection H as ->.
  - cbn [snd]. split.
    + intros [= <-]. now left.
    + intros [[_ ->] | [H | (c & H & _)]]; [reflexivity | discriminate..].
Qed.

Lemma check_and_update_example_input_raises_witness :
  snd (check_and_update_example_input_io 1 2024 "aoc/2024/day_01"
         "aoc/2024/day_01/example.txt" (Some (Ok "answer_a: 7  answer_b: -"))
         (Completed "answer_a: 7  answer_b: 42") (Raise OSError)
         (Ok "answer_a: 7  answer_b: 42"))
  = Raise OSError.
Proof.
  apply (check_and_update_example_input_raises 1 2024 "aoc/2024/day_01"
           "aoc/2024/day_01/example.txt" (Some (Ok "answer_a: 7  answer_b: -"))
           (Completed "answer_a: 7  answer_b: 42") (Raise OSError)
           (Ok "answer_a: 7  answer_b: 42") OSError).
  right. right. exists "answer_a: 7  answer_b: -".
  split; [reflexivity | split; [reflexivity|]]. right.
  exists "answer_a: 7  answer_b: 42". split; [reflexivity | now left].
Defined.

(** X21. [aocd] is run, once, exactly when [example.txt] exists and holds the
    placeholder [answer_b: -]; the file is written only when that run
    completes, with the output of the run, and is otherwise left as it
    was. *)
Theorem check_and_update_example_input_runs
    day year day_dir example_file example aocd :
  let out :=
    check_and_update_example_input day year day_dir example_file example aocd in
  (List.length (List.filter is_run (example_did out))
   = if match example with
        | Some content => Str.contains "answer_b: -" content
        | None => false
        end
     then 1%nat else 0%nat)
  /\ (example_after out <> example ->
      exists stdout,
        aocd = Completed stdout /\ example_after out = Some stdout
        /\ In (WriteExample stdout) (example_did out))
  /\ (forall content, In (WriteExample content) (example_did out) ->
                      example_after out = Some content).
Proof.
  unfold check_and_update_example_input.
  destruct example as [content|]; cbn zeta.
  - destruct (Str.contains "answer_b: -" content).
    + destruct aocd as [stdout|stderr|e0];
        cbn [example_did example_after filter is_run List.length].
      * destruct (Str.contains "answer_b: -" stdout);
          cbn [filter is_run List.length]; (split; [reflexivity | split]).
        -- intros _. exists stdout. repeat split. right. now left.
        -- intros c [H | [H | []]]; [discriminate | now injection H as <-].
        -- intros _. exists stdout. repeat split. right. now left.
        -- intros c [H | [H | [H | []]]]; try discriminate.
           now injection H as <-.
      * split; [reflexivity | split; [congruence|]].
        intros c [H | [H | []]]; discriminate.
      * split; [reflexivity | split; [congruence|]].
        intros c [H | []]; discriminate.
    + cbn [example_did example_after filter is_run List.length].
      split; [reflexivity | split; [congruence|]].
      intros c [H | []]; discriminate.
  - cbn [example_did example_after filter is_run List.length].
    split; [reflexivity | split; [congruence | intros c []]].
Qed.

Lemma check_and_update_example_input_runs_witness :
  exists stdout,
    Completed "answer_a: 7  answer_b: 42" = Completed stdout
    /\ example_after
         (check_and_update_example_input 1 2024 "aoc/2024/day_01"
            "aoc/2024/day_01/example.txt" (Some "answer_a: 7  answer_b: -")
            (Completed "answer_a: 7  answer_b: 42")) = Some stdout
    /\ In (WriteExample stdout)
         (example_did
            (check_and_update_example_input 1 2024 "aoc/2024/day_01"
               "aoc/2024/day_01/example.txt" (Some "answer_a: 7  answer_b: -")
               (Completed "answer_a: 7  answer_b: 42"))).
Proof.
  apply (check_and_update_example_input_runs 1 2024 "aoc/2024/day_01"
           "aoc/2024/day_01/example.txt" (Some "answer_a: 7  answer_b: -")
           (Completed "answer_a: 7  answer_b: 42")).
  discriminate.
Defined.

(** X22. The refresh is idempotent once part b is filled in: after a run
    that completed with an output without the placeholder, a second call
    runs nothing, leaves the file as it is and returns false, whatever
    [aocd] would answer. *)
Theorem check_and_update_example_input_idempotent
    day year day_dir example_file content stdout aocd :
  Str.contains "answer_b: -" content = true ->
  Str.contains "answer_b: -" stdout = false ->
  let first :=
    check_and_update_example_input day year day_dir example_file
      (Some content) (Completed stdout) in
  let second :=
    check_and_update_example_input day year day_dir example_file
      (example_after first) aocd in
  example_returned first = Ok true
  /\ example_after first = Some stdout
  /\ example_returned second = Ok false
  /\ example_after second = example_after first
  /\ List.filter is_run (example_did second) = [].
Proof.
  intros H1 H2. unfold check_and_update_example_input.
  rewrite H1. cbn [example_after]. rewrite H2. cbn. repeat split.
Qed.

Lemma check_and_update_example_input_idempotent_witness :
  example_returned
    (check_and_update_example_input 1 2024 "aoc/2024/day_01"
       "aoc/2024/day_01/example.txt"
       (example_after
          (check_and_update_example_input 1 2024 "aoc/2024/day_01"
             "aoc/2024/day_01/example.txt" (Some "answer_a: 7  answer_b: -")
             (Completed "answer_a: 7  answer_b: 42")))
       (RunRaises OSError))
  = Ok false.
Proof.
  apply (check_and_update_example_input_idempotent 1 2024 "aoc/2024/day_01"
           "aoc/2024/day_01/example.txt" "answer_a: 7  answer_b: -"
           "answer_a: 7  answer_b: 42" (RunRaises OSError));
    reflexivity.
Defined.

(** ** The dialogue with the operator *)

Section Dialogue.

Lemma lstrip_idem s : PyStr.lstrip (PyStr.lstrip s) = PyStr.lstrip s.
Proof.
  induction s as [|c s IH]; [reflexivity|]. cbn [PyStr.lstrip].
  destruct (PyStr.is_space c) eqn:Hc; [exact IH|].
  cbn [PyStr.lstrip]. now rewrite Hc.
Qed.

Lemma rstrip_idem s : PyStr.rstrip (PyStr.rstrip s) = PyStr.rstrip s.
Proof.
  induction s as [|c s IH]; [reflexivity|]. cbn [PyStr.rstrip].
  destruct (PyStr.rstrip s) as [|d s'] eqn:Hs.
  - destruct (PyStr.is_space c) eqn:Hc; [reflexivity|].
    cbn [PyStr.rstrip]. now rewrite Hc.
  - cbn [PyStr.rstrip] in *. now rewrite IH.
Qed.

Lemma lstrip_rstrip s :
  PyStr.lstrip s = s -> PyStr.lstrip (PyStr.rstrip s) = PyStr.rstrip s.
Proof.
  destruct s as [|c s]; [reflexivity|]. cbn [PyStr.lstrip PyStr.rstrip].
  destruct (PyStr.is_space c) eqn:Hc.
  - intros H. exfalso.
    assert (Hlen : forall t, (String.length (PyStr.lstrip t) <= String.length t)%nat).
    { induction t as [|d t IHt]; [reflexivity|]. cbn [PyStr.lstrip].
      destruct (PyStr.is_space d); cbn [String.length]; lia. }
    specialize (Hlen s). rewrite H in Hlen. cbn [String.length] in Hlen. lia.
  - intros _. destruct (PyStr.rstrip s); cbn [PyStr.lstrip]; now rewrite Hc.
Qed.

Lemma strip_idem s : PyStr.strip (PyStr.strip s) = PyStr.strip s.
Proof.
  unfold PyStr.strip.
  rewrite (lstrip_rstrip (PyStr.lstrip s)) by apply lstrip_idem.
  apply rstrip_idem.
Qed.

Lemma ask_part_got inputs : forall tr part rest,
  ask_part inputs = (tr, Got part rest) ->
  (part = "a" \/ part = "b")
  /\ exists rejected line,
      inputs = (rejected ++ line :: rest)%list
      /\ part = PyStr.lower (PyStr.strip line)
      /\ List.Forall
           (fun l => PyStr.lower (PyStr.strip l) <> "a"
                     /\ PyStr.lower (PyStr.strip l) <> "b") rejected
      /\ tr = (List.concat
                 (List.map
                    (fun _ =>
                       [Ask part_prompt;
                        Tell ("Invalid input. Please enter 'a' or 'b'." ++ nl)])
                    rejected)
               ++ [Ask part_prompt])%list.
Proof.
  induction inputs as [|line inputs IH]; intros tr part rest; cbn [ask_part];
    [discriminate|].
  destruct (String.eqb _ "a" || String.eqb _ "b") eqn:Hv.
  - intros [= <- <- <-]. split.
    + apply orb_true_iff in Hv as [H | H]; apply String.eqb_eq in H; auto.
    + exists [], line. repeat split. constructor.
  - destruct (ask_part inputs) as [tr0 r0]. intros [= <- ->].
    destruct (IH _ _ _ eq_refl) as (Hpart & rejected & l & -> & Hl & Hrej & ->).
    split; [exact Hpart|]. exists (line :: rejected), l.
    split; [reflexivity | split; [exact Hl | split; [|reflexivity]]].
    constructor; [|exact Hrej].
    apply orb_false_iff in Hv as [Ha Hb].
    apply String.eqb_neq in Ha, Hb. now split.
Qed.

Lemma filter_tell_app tr tr' :
  List.length (List.filter is_tell (tr ++ tr'))
  = (List.length (List.filter is_tell tr) + List.length (List.filter is_tell tr'))%nat.
Proof.
  now rewrite filter_app, length_app.
Qed.

Lemma tells_of_rejected (rejected : list string) p t :
  List.length
    (List.filter is_tell
       (List.concat (List.map (fun _ => [Ask p; Tell t]) rejected)))
  = List.length rejected.
Proof.
  induction rejected as [|r rejected IH]; [reflexivity|].
  cbn [map List.concat app filter is_tell List.length]. now rewrite IH.
Qed.

Lemma prompt_got inputs tr part answer rest :
  prompt_for_part_and_answer inputs = (tr, Got (part, answer) rest) ->
  (part = "a" \/ part = "b")
  /\ PyStr.strip answer = answer
  /\ exists rejected line_part line_answer,
      inputs = (rejected ++ line_part :: line_answer :: rest)%list
      /\ List.Forall
           (fun l => PyStr.lower (PyStr.strip l) <> "a"
                     /\ PyStr.lower (PyStr.strip l) <> "b") rejected
      /\ part = PyStr.lower (PyStr.strip line_part)
      /\ answer = PyStr.strip line_answer
      /\ tr = (List.concat
                 (List.map
                    (fun _ =>
                       [Ask part_prompt;
                        Tell ("Invalid input. Please enter 'a' or 'b'." ++ nl)])
                    rejected)
               ++ [Ask part_prompt; Ask "Enter the answer: "])%list
      /\ List.length (List.filter is_tell tr) = List.length rejected.
Proof.
  unfold prompt_for_part_and_answer.
  destruct (ask_part inputs) as [tr0 [p rest0|]] eqn:Hask; [|discriminate].
  destruct rest0 as [|line rest1]; [discriminate|].
  intros [= <- <- <- <-].
  destruct (ask_part_got _ _ _ _ Hask) as (Hp & rejected & l & -> & Hl & Hrej & ->).
  split; [exact Hp | split; [apply strip_idem|]].
  exists rejected, l, line.
  split; [reflexivity | split; [exact Hrej | split; [exact Hl | split; [reflexivity|]]]].
  split; [now rewrite <- app_assoc|].
  rewrite !filter_tell_app, tells_of_rejected.
  cbn [filter is_tell List.length]. lia.
Qed.

Variables (now_year now_month now_day : Z).

Lemma within_range v lo hi :
  within v lo hi = true -> exists n, v = Some n /\ lo <= n <= hi.
Proof.
  destruct v as [n|]; [|discriminate]. cbn [within]. intros H.
  apply andb_true_iff in H as [H H2]. apply andb_true_iff in H as [_ H1].
  apply Z.leb_le in H1, H2. now exists n.
Qed.

Lemma ask_year_got inputs : forall tr year rest,
  ask_year now_year now_month now_day inputs = (tr, Got year rest) ->
  2015 <= year <= now_year.
Proof.
  induction inputs as [|line inputs IH]; intros tr year rest; cbn [ask_year];
    [discriminate|].
  destruct (entered _ _) as [v|].
  - destruct (within v 2015 now_year) eqn:Hw.
    + intros [= <- <- <-]. now destruct (within_range _ _ _ Hw) as (n & -> & H).
    + destruct (ask_year _ _ _ inputs) as [tr0 r0]. intros [= <- ->].
      now apply (IH _ _ _ eq_refl).
  - destruct (ask_year _ _ _ inputs) as [tr0 r0]. intros [= <- ->].
    now apply (IH _ _ _ eq_refl).
Qed.

Lemma ask_day_got inputs : forall tr day rest,
  ask_day now_month now_day inputs = (tr, Got day rest) ->
  1 <= day <= AOC_DAYS.
Proof.
  induction inputs as [|line inputs IH]; intros tr day rest; cbn [ask_day];
    [discriminate|].
  destruct (entered _ _) as [v|].
  - destruct (within v 1 AOC_DAYS) eqn:Hw.
    + intros [= <- <- <-]. now destruct (within_range _ _ _ Hw) as (n & -> & H).
    + destruct (ask_day _ _ inputs) as [tr0 r0]. intros [= <- ->].
      now apply (IH _ _ _ eq_refl).
  - destruct (ask_day _ _ inputs) as [tr0 r0]. intros [= <- ->].
    now apply (IH _ _ _ eq_refl).
Qed.

Lemma get_day_and_year_got inputs tr day year rest :
  get_day_and_year now_year now_month now_day inputs = (tr, Got (day, year) rest) ->
  2015 <= year <= now_year /\ 1 <= day <= AOC_DAYS.
Proof.
  unfold get_day_and_year.
  destruct (ask_year _ _ _ inputs) as [tr0 [y rest0|]] eqn:Hy; [|discriminate].
  destruct (ask_day _ _ rest0) as [tr1 [d rest1|]] eqn:Hd; [|discriminate].
  intros [= <- <- <- <-]. split.
  - exact (ask_year_got _ _ _ _ Hy).
  - exact (ask_day_got _ _ _ _ Hd).
Qed.

End Dialogue.

(** X23. Whatever the operator types, a part the prompt returns is [a] or
    [b]: it is the stripped and lower-cased form of the first line that is
    one of them, every line before it being neither and answered with one
    [Invalid input] message. The answer is the line after it, stripped, so it
    carries no white space at either end. *)
Theorem prompt_for_part_and_answer_valid inputs tr part answer rest :
  prompt_for_part_and_answer inputs = (tr, Got (part, answer) rest) ->
  (part = "a" \/ part = "b")
  /\ PyStr.strip answer = answer
  /\ exists rejected line_part line_answer,
      inputs = (rejected ++ line_part :: line_answer :: rest)%list
      /\ List.Forall
           (fun l => PyStr.lower (PyStr.strip l) <> "a"
                     /\ PyStr.lower (PyStr.strip l) <> "b") rejected
      /\ part = PyStr.lower (PyStr.strip line_part)
      /\ answer = PyStr.strip line_answer
      /\ tr = (List.concat
                 (List.map
                    (fun _ =>
                       [Ask part_prompt;
                        Tell ("Invalid input. Please enter 'a' or 'b'." ++ nl)])
                    rejected)
               ++ [Ask part_prompt; Ask "Enter the answer: "])%list
      /\ List.length (List.filter is_tell tr) = List.length rejected.
Proof.
  apply prompt_got.
Qed.

Lemma prompt_for_part_and_answer_valid_witness :
  ("b" = "a" \/ "b" = "b") /\ PyStr.strip "1 234" = "1 234".
Proof.
  destruct (prompt_for_part_and_answer_valid
              ["c"; ""; "  B "; "  1 234  "; "left"]
              [Ask part_prompt;
               Tell ("Invalid input. Please enter 'a' or 'b'." ++ nl);
               Ask part_prompt;
               Tell ("Invalid input. Please enter 'a' or 'b'." ++ nl);
               Ask part_prompt; Ask "Enter the answer: "]
              "b" "1 234" ["left"] eq_refl) as (H1 & H2 & _).
  split; [exact H1 | exact H2].
Defined.

(** X24. Whatever the operator types, a day and a year the prompt returns
    satisfy [2015 <= year <= now.year] and [1 <= day <= 25]. From the first
    to the twenty-fifth of December, in a year from 2015 on, two empty lines
    select the current year and day. *)
Theorem get_day_and_year_valid now_year now_month now_day :
  (forall inputs tr day year rest,
      get_day_and_year now_year now_month now_day inputs
      = (tr, Got (day, year) rest) ->
      2015 <= year <= now_year /\ 1 <= day <= 25)
  /\ (in_advent now_month now_day = true -> 2015 <= now_year ->
      forall rest,
        get_day_and_year now_year now_month now_day ("" :: "" :: rest)
        = ([Ask (year_prompt now_year now_month now_day);
            Ask (day_prompt now_month now_day)],
           Got (now_day, now_year) rest)).
Proof.
  split; [intros; eapply get_day_and_year_got; eassumption|].
  intros Hadv Hyear rest.
  pose proof Hadv as Hadv'. unfold in_advent in Hadv'.
  apply andb_true_iff in Hadv' as [Hm H25]. apply andb_true_iff in Hm as [_ H1].
  apply Z.leb_le in H1, H25.
  assert (Hy : within (Some now_year) 2015 now_year = true).
  { cbn [within]. rewrite !andb_true_iff, negb_true_iff, Z.eqb_neq, !Z.leb_le. lia. }
  assert (Hd : within (Some now_day) 1 AOC_DAYS = true).
  { cbn [within]. unfold AOC_DAYS.
    rewrite !andb_true_iff, negb_true_iff, Z.eqb_neq, !Z.leb_le. lia. }
  unfold get_day_and_year. cbn [ask_year].
  change (PyStr.strip "") with "". unfold entered. cbn [String.eqb].
  unfold default_year. rewrite Hadv, Hy.
  cbn [ask_day]. change (PyStr.strip "") with "". unfold entered.
  cbn [String.eqb]. unfold default_day. rewrite Hadv, Hd. reflexivity.
Qed.

Lemma get_day_and_year_valid_witness :
  get_day_and_year 2024 12 7 ("" :: "" :: ["a"; "42"])
  = ([Ask (year_prompt 2024 12 7); Ask (day_prompt 12 7)],
     Got (7, 2024) ["a"; "42"]).
Proof.
  apply (proj2 (get_day_and_year_valid 2024 12 7)); [reflexivity | lia].
Defined.

(** ** [submit_answer]: from the console to the submission *)

Section SubmitAnswerFacts.

Variable parse : string -> result datetime.
Variable path_join : string -> string -> string.
Variable getenv : string -> option string.
Variables (now_year now_month now_day : Z).
Variable world_of : Z -> Z -> string -> string -> world.

Lemma filter_submission_console tr :
  List.filter is_submission (List.map Console tr) = [].
Proof.
  induction tr as [|e tr IH]; [reflexivity | exact IH].
Qed.

Lemma filter_submission_effect effects :
  List.filter is_submission (List.map Effect effects)
  = List.map Effect (List.filter is_submit effects).
Proof.
  induction effects as [|e effects IH]; [reflexivity|].
  cbn [map filter]. destruct e; cbn [is_submission is_submit]; now rewrite ?IH.
Qed.

(** The submissions of a run of [submit_answer]. *)
Lemma submit_answer_submissions inputs :
  List.filter is_submission
    (fst (submit_answer parse path_join getenv now_year now_month now_day world_of inputs))
  = []
  \/ exists answer part year day token,
      List.filter is_submission
        (fst (submit_answer parse path_join getenv now_year now_month now_day world_of inputs))
      = [Effect (Submit answer part year day)]
      /\ 2015 <= year <= now_year /\ 1 <= day <= 25
      /\ (part = "a" \/ part = "b")
      /\ PyStr.strip answer = answer
      /\ getenv "AOC_SESSION" = Some token /\ token <> "".
Proof.
  unfold submit_answer, setup_user_session, setup_environment.
  destruct (getenv "BASE_DIR") as [base|]; [|now left]. cbn [bind snd].
  destruct (getenv "AOC_SESSION") as [token|] eqn:Hs; [|now left].
  destruct (String.eqb token "") eqn:Htoken; [now left|].
  apply String.eqb_neq in Htoken.
  destruct (get_day_and_year now_year now_month now_day inputs)
    as [tr [[day year] rest|]] eqn:Hdy.
  2:{ left. cbn [fst filter is_submission]. apply filter_submission_console. }
  destruct (prompt_for_part_and_answer rest) as [tr' [[part answer] rest'|]] eqn:Hp.
  2:{ left. cbn [fst filter is_submission]. apply filter_submission_console. }
  destruct (submit_answer_attempt parse (world_of year day part answer)
              year day part answer) as [effects r] eqn:Hrun.
  cbn [fst filter is_submission].
  rewrite filter_app, filter_submission_console, filter_submission_effect.
  cbn [app].
  pose proof (attempt_submissions parse (world_of year day part answer)
                year day part answer) as H.
  rewrite Hrun in H. cbn [Prog.trace fst] in H.
  destruct H as [-> | ->]; [now left|]. right.
  destruct (get_day_and_year_got _ _ _ _ _ _ _ _ Hdy) as [Hy Hd].
  destruct (prompt_got _ _ _ _ _ Hp) as (Hpart & Hanswer & _).
  exists answer, part, year, day, token. unfold AOC_DAYS in Hd.
  repeat split; try assumption; try lia.
Qed.

End SubmitAnswerFacts.

(** X25. Without its configuration [submit_answer] asks nothing and submits
    nothing: with [BASE_DIR] unset it raises [TypeError], whatever the session
    token; with [BASE_DIR] set and the session token unset or empty it prints
    that the token was not found and returns. *)
Theorem submit_answer_unconfigured
    parse path_join getenv now_year now_month now_day world_of inputs :
  (getenv "BASE_DIR" = None ->
   submit_answer parse path_join getenv now_year now_month now_day world_of inputs
   = ([], Raised TypeError))
  /\ (getenv "BASE_DIR" <> None ->
      getenv "AOC_SESSION" = None \/ getenv "AOC_SESSION" = Some "" ->
      submit_answer parse path_join getenv now_year now_month now_day world_of inputs
      = ([Console (Tell (session_missing ++ nl))], Returned)).
Proof.
  unfold submit_answer, setup_user_session, setup_environment. split.
  - now intros ->.
  - intros Hb Hs. destruct (getenv "BASE_DIR"); [|congruence]. cbn [bind snd].
    now destruct Hs as [-> | ->].
Qed.

Lemma submit_answer_unconfigured_witness :
  submit_answer Iso8601.parse String.append
    (fun name => if String.eqb name "AOC_SESSION" then Some "53616c7465645f5f" else None)
    2024 12 7 accepting_world ["2023"; "5"; "a"; "42"]
  = ([], Raised TypeError)
  /\ submit_answer Iso8601.parse String.append
       (fun name => if String.eqb name "BASE_DIR" then Some "/home/elf" else None)
       2024 12 7 accepting_world ["2023"; "5"; "a"; "42"]
     = ([Console (Tell (session_missing ++ nl))], Returned).
Proof.
  split.
  - apply (submit_answer_unconfigured Iso8601.parse String.append
             (fun name => if String.eqb name "AOC_SESSION"
                          then Some "53616c7465645f5f" else None)
             2024 12 7 accepting_world ["2023"; "5"; "a"; "42"]).
    reflexivity.
  - apply (submit_answer_unconfigured Iso8601.parse String.append
             (fun name => if String.eqb name "BASE_DIR"
                          then Some "/home/elf" else None)
             2024 12 7 accepting_world ["2023"; "5"; "a"; "42"]).
    + discriminate.
    + now left.
Defined.

(** X26. Whatever the operator types and the collaborators answer, a run of
    [submit_answer] issues at most one submission, and a submission it issues
    is for a year from 2015 to the current one, a day from 1 to 25, part [a]
    or [b] and an answer without white space at its ends, under a session
    token that is set and not empty. *)
Theorem submit_answer_validated
    parse path_join getenv now_year now_month now_day world_of inputs :
  (List.length
     (List.filter is_submission
        (fst (submit_answer parse path_join getenv now_year now_month now_day world_of inputs)))
   <= 1)%nat
  /\ forall e,
      In e (fst (submit_answer parse path_join getenv now_year now_month now_day world_of inputs)) ->
      is_submission e = true ->
      exists answer part year day token,
        e = Effect (Submit answer part year day)
        /\ 2015 <= year <= now_year /\ 1 <= day <= 25
        /\ (part = "a" \/ part = "b")
        /\ PyStr.strip answer = answer
        /\ getenv "AOC_SESSION" = Some token /\ token <> "".
Proof.
  destruct (submit_answer_submissions parse path_join getenv now_year now_month now_day
              world_of inputs)
    as [H | (answer & part & year & day & token & H & Hrest)].
  - rewrite H. split; [cbn; lia|].
    intros e Hin He.
    assert (Hf : In e (List.filter is_submission
                         (fst (submit_answer parse path_join getenv now_year now_month
                                 now_day world_of inputs))))
      by (apply filter_In; now split).
    rewrite H in Hf. destruct Hf.
  - rewrite H. split; [cbn; lia|].
    intros e Hin He.
    assert (Hf : In e (List.filter is_submission
                         (fst (submit_answer parse path_join getenv now_year now_month
                                 now_day world_of inputs))))
      by (apply filter_In; now split).
    rewrite H in Hf. destruct Hf as [<- | []].
    now exists answer, part, year, day, token.
Qed.

Lemma submit_answer_validated_witness :
  exists answer part year day token,
    Effect (Submit "42" "a" 2023 5) = Effect (Submit answer part year day)
    /\ 2015 <= year <= 2024 /\ 1 <= day <= 25
    /\ (part = "a" \/ part = "b")
    /\ PyStr.strip answer = answer
    /\ configured_env "AOC_SESSION" = Some token /\ token <> "".
Proof.
  apply (proj2 (submit_answer_validated Iso8601.parse String.append
                  configured_env 2024 12 7
                  accepting_world ["1999"; "twenty"; " 2023"; "0"; "5 "; "A"; " 42 "])).
  - vm_compute. repeat (first [left; reflexivity | right]).
  - reflexivity.
Defined.
